(** * DRPO prompt orchestration: a shallow embedding of [auto_model.py] and
    [openai_model.py], and the properties of the orchestrator that follow
    from the code.

    Python values that flow through the code untyped (the unpickled prompt
    artifact, the prompts, [stop], [**kwargs]) are values of [pyobj];
    a [dict] is an insertion-ordered association list with distinct keys;
    exceptions are values of [exn]; code that raises returns a [result];
    code that also touches the process state (environment, the module global
    [openai.api_key], files, the two backends) runs in the monad [M] over
    [world], whose [trace] records every effect in order. *)

From Stdlib Require Import List String Ascii ZArith QArith Bool Lia.
From Stdlib Require Import Sorting.Sorted Sorting.Permutation.
Import ListNotations.
Local Open Scope string_scope.
Local Open Scope list_scope.

(* ================================================================= *)
(** ** Python values, exceptions, dictionaries *)

(** The line feed of Python's ["\n"]. *)
Definition nl : string := String (ascii_of_nat 10) EmptyString.

(** [dict]: string keys in insertion order, one entry per key. *)
Definition dict (V : Type) : Type := list (string * V).

#[warnings="-register-all"]
Inductive pyobj : Type :=
| PyNone
| PyBool (b : bool)
| PyInt (z : Z)
| PyStr (s : string)
| PyList (items : list pyobj)
| PyTuple (items : list pyobj)
| PyDict (entries : list (string * pyobj))
| PyInst (cls : string) (attrs : list (string * pyobj)).

Inductive exn : Type :=
| AssertionError (msg : string)
| TypeError (msg : string)
| AttributeError (msg : string)
| IndexError (msg : string)
| KeyError (key : string)
| ValueError (msg : string)
| FileNotFoundError (path : string)
| BackendError (msg : string).

Inductive result (A : Type) : Type :=
| Ok (a : A)
| Raise (e : exn).
Arguments Ok {A} a.
Arguments Raise {A} e.

Definition rbind {A B} (m : result A) (k : A -> result B) : result B :=
  match m with
  | Ok a => k a
  | Raise e => Raise e
  end.

Notation "x <-? m ;; k" := (rbind m (fun x => k))
  (at level 61, m at next level, right associativity).

Module Dict.

Fixpoint get {V} (k : string) (d : dict V) : option V :=
  match d with
  | [] => None
  | (k', v) :: d' => if String.eqb k k' then Some v else get k d'
  end.

(** [k in d] *)
Definition mem {V} (k : string) (d : dict V) : bool :=
  match get k d with Some _ => true | None => false end.

(** [d[k] = v]: an existing key keeps its position, a new one goes last. *)
Fixpoint set {V} (k : string) (v : V) (d : dict V) : dict V :=
  match d with
  | [] => [(k, v)]
  | (k', v') :: d' =>
      if String.eqb k k' then (k', v) :: d' else (k', v') :: set k v d'
  end.

(** Iterating a dict yields its keys in insertion order. *)
Definition keys {V} (d : dict V) : list string := map fst d.

(** [d[k]] *)
Definition getitem {V} (k : string) (d : dict V) : result V :=
  match get k d with
  | Some v => Ok v
  | None => Raise (KeyError k)
  end.

(** [d(k)]: a dict is not callable, whatever the argument. *)
Definition call {V} (d : dict V) (arg : string) : result V :=
  Raise (TypeError "'dict' object is not callable").

(** [json.load] of an object: later duplicates of a key overwrite. *)
Definition of_pairs {V} (kvs : list (string * V)) : dict V :=
  fold_left (fun d kv => set (fst kv) (snd kv) d) kvs [].

End Dict.

Definition py_type_name (o : pyobj) : string :=
  match o with
  | PyNone => "NoneType"
  | PyBool _ => "bool"
  | PyInt _ => "int"
  | PyStr _ => "str"
  | PyList _ => "list"
  | PyTuple _ => "tuple"
  | PyDict _ => "dict"
  | PyInst cls _ => cls
  end.

Definition is_none (o : pyobj) : bool :=
  match o with PyNone => true | _ => false end.

Definition no_attribute (o : pyobj) (name : string) : exn :=
  AttributeError
    ("'" ++ py_type_name o ++ "' object has no attribute '" ++ name ++ "'").

(** [o.name] for a data attribute: only instances carry them. *)
Definition py_getattr (o : pyobj) (name : string) : result pyobj :=
  match o with
  | PyInst _ attrs =>
      match Dict.get name attrs with
      | Some v => Ok v
      | None => Raise (no_attribute o name)
      end
  | _ => Raise (no_attribute o name)
  end.

Definition last_char (s : string) : option ascii :=
  match rev (list_ascii_of_string s) with
  | c :: _ => Some c
  | [] => None
  end.

(** [o[-1]] *)
Definition py_index_last (o : pyobj) : result pyobj :=
  match o with
  | PyList items | PyTuple items =>
      match rev items with
      | x :: _ => Ok x
      | [] => Raise (IndexError (py_type_name o ++ " index out of range"))
      end
  | PyStr s =>
      match last_char s with
      | Some c => Ok (PyStr (String c EmptyString))
      | None => Raise (IndexError "string index out of range")
      end
  | PyDict _ => Raise (KeyError "-1")
  | _ => Raise (TypeError
                  ("'" ++ py_type_name o ++ "' object is not subscriptable"))
  end.

Definition chars_of (s : string) : list pyobj :=
  map (fun c => PyStr (String c EmptyString)) (list_ascii_of_string s).

(** The double quote, for the messages that hold one. *)
Definition dquote : string := String (ascii_of_nat 34) EmptyString.

(** What a list or a tuple answers to [+ s] with [s] a str. *)
Definition cannot_concatenate (kind : string) : exn :=
  TypeError ("can only concatenate " ++ kind ++ " (not " ++ dquote ++ "str"
               ++ dquote ++ ") to " ++ kind).

(** Truth value of a value of a builtin type, as [if o] takes it. *)
Definition builtin_truth (o : pyobj) : bool :=
  match o with
  | PyNone => false
  | PyBool b => b
  | PyInt z => negb (z =? 0)%Z
  | PyStr s => negb (String.eqb s "")
  | PyList items | PyTuple items =>
      match items with [] => false | _ => true end
  | PyDict entries => match entries with [] => false | _ => true end
  | PyInst _ _ => true
  end.

(** A str with an embedded NUL is refused by the environment. *)
Definition has_nul (s : string) : bool :=
  existsb (Ascii.eqb (ascii_of_nat 0)) (list_ascii_of_string s).

(** The first key of [kwargs] that repeats a keyword the call already
    binds, if any. *)
Definition repeated_keyword (bound : list string) (kwargs : dict pyobj)
  : option string :=
  find (fun k => existsb (String.eqb k) bound) (map fst kwargs).

(** [kwargs] without the entry a named parameter of the callee takes. *)
Definition without_key (name : string) (kwargs : dict pyobj) : dict pyobj :=
  filter (fun kv => negb (String.eqb (fst kv) name)) kwargs.

(** [l[:k]] *)
Definition py_slice_to {A} (k : Z) (l : list A) : list A :=
  if (0 <=? k)%Z then firstn (Z.to_nat k) l
  else firstn (List.length l - Z.to_nat (- k)) l.

(* ================================================================= *)
(** ** Requests, backends and the process state *)

(** A chat message is a dict ([{"role": ..., "content": ...}]). *)
Definition message : Type := dict pyobj.

(** The keyword arguments of [client.chat.completions.create]. The floats
    [temperature] and [top_p] are only ever passed on by the code; they are
    rationals here. *)
Record chat_request : Type := {
  req_model : string;
  req_messages : list message;
  req_temperature : Q;
  req_max_tokens : Z;
  req_top_p : Q;
  req_n : Z;
  req_stop : pyobj;
  req_response_format : option (dict pyobj);
  req_seed : Z;
  req_kwargs : dict pyobj
}.

(** The arguments of [VLLMModel.generate]. *)
Record engine_request : Type := {
  eng_prompt : pyobj;
  eng_temperature : Q;
  eng_top_p : Q;
  eng_max_new_tokens : Z;
  eng_stop : pyobj;
  eng_kwargs : dict pyobj
}.

Inductive event : Type :=
| EvPrint (line : string)
| EvOpen (path : string) (mode : string)
| EvChatCompletion (req : chat_request)
| EvEngineGenerate (req : engine_request).

(** A call that leaves the process for a model backend. *)
Definition is_backend_call (ev : event) : bool :=
  match ev with
  | EvChatCompletion _ | EvEngineGenerate _ => true
  | _ => false
  end.

Definition is_open (ev : event) : bool :=
  match ev with
  | EvOpen _ _ => true
  | _ => false
  end.

Record world : Type := {
  environ : dict string;              (* os.environ *)
  openai_api_key : option string;     (* the module global openai.api_key *)
  trace : list event
}.

Definition M (A : Type) : Type := world -> result A * world.

Definition ret {A} (a : A) : M A := fun w => (Ok a, w).

Definition raise {A} (e : exn) : M A := fun w => (Raise e, w).

Definition bind {A B} (m : M A) (k : A -> M B) : M B :=
  fun w =>
    match m w with
    | (Ok a, w') => k a w'
    | (Raise e, w') => (Raise e, w')
    end.

Notation "x <- m ;; k" := (bind m (fun x => k))
  (at level 61, m at next level, right associativity).
Notation "m ;;; k" := (bind m (fun _ => k))
  (at level 61, right associativity).

Definition lift {A} (r : result A) : M A := fun w => (r, w).

Definition emit (ev : event) : M unit :=
  fun w => (Ok tt, {| environ := environ w;
                      openai_api_key := openai_api_key w;
                      trace := trace w ++ [ev] |}).

Definition py_assert (cond : bool) (msg : string) : M unit :=
  if cond then ret tt else raise (AssertionError msg).

Definition print (line : string) : M unit := emit (EvPrint line).

(** [os.environ[k] = v]: a name or a value with an embedded NUL is refused
    with [ValueError] and the environment left as it was. *)
Definition setenv (k v : string) : M unit :=
  fun w =>
    if has_nul k || has_nul v
    then (Raise (ValueError "embedded null byte"), w)
    else (Ok tt, {| environ := Dict.set k v (environ w);
                    openai_api_key := openai_api_key w;
                    trace := trace w |}).

(** [os.getenv(k, None)] *)
Definition getenv (k : string) : M (option string) :=
  fun w => (Ok (Dict.get k (environ w)), w).

(** [openai.api_key = key] *)
Definition set_openai_api_key (key : string) : M unit :=
  fun w => (Ok tt, {| environ := environ w;
                      openai_api_key := Some key;
                      trace := trace w |}).

(** An embedding is a fixed-length numeric vector. *)
Definition vector : Type := list Q.

(** [openai.OpenAI]: the client object. *)
Record OpenAIClient : Type := {
  client_timeout : Z;
  client_api_key : string
}.

Record OpenAIChatModel : Type := {
  openai_model_name : string;
  client : OpenAIClient
}.

(** A tokenizer object, by its data attributes. *)
Record Tokenizer : Type := {
  tok_class : string;
  tok_attrs : dict pyobj
}.

(** A [VLLMModel] object, as far as [AutoModel] reads it. *)
Record VLLMModel : Type := {
  vllm_model_name : string;
  tokenizer : Tokenizer
}.

(** [self.open_ai_model] and the class of [self.model] are set together
    (lines 35 to 40): the flag is the tag of this variant. *)
Inductive backend : Type :=
| Hosted (m : OpenAIChatModel)
| SelfHosted (m : VLLMModel).

Definition model_name (b : backend) : string :=
  match b with
  | Hosted m => openai_model_name m
  | SelfHosted m => vllm_model_name m
  end.

Record AutoModel : Type := {
  model_mapping : dict string;
  icl_examples : dict string;
  embedding_model : string -> vector;
  icl_query_embeddings : dict vector;
  model : backend;
  optimized_prompt : pyobj
}.

(** [self.optimized_prompt], where a flag of the same name is in scope. *)
Definition self_optimized_prompt (self : AutoModel) : pyobj :=
  optimized_prompt self.

Definition open_ai_model (self : AutoModel) : bool :=
  match model self with
  | Hosted _ => true
  | SelfHosted _ => false
  end.

(** The collaborators outside the two source files: libraries, the file
    system, the hosted API and the local engine. *)
Class Runtime : Type := {
  (** [sentence_transformers.util.cos_sim]; a similarity is a rational here,
      totally ordered as floats are when none is NaN *)
  cos_sim : vector -> vector -> Q;
  (** [SentenceTransformer(name)], by the [encode] of the model it loads *)
  SentenceTransformer : string -> result (string -> vector);
  (** the members of the JSON object stored at a path, if there is a file *)
  json_files : string -> option (list (string * string));
  (** the object pickled at a path, if there is a file *)
  pickle_files : string -> option pyobj;
  (** the hosted API behind [client.chat.completions.create]: the
      [message.content] of each choice of the response *)
  chat_completions_create :
    OpenAIClient -> chat_request -> result (list pyobj);
  (** [VLLMModel(model_name, num_gpus, dtype, gpu_memory_utilization,
      max_model_len, **kwargs)] *)
  VLLMModel_init :
    string -> Z -> string -> Q -> option Z -> dict pyobj -> result VLLMModel;
  (** [VLLMModel.generate] *)
  VLLMModel_generate : VLLMModel -> engine_request -> result pyobj;
  (** [tokenizer.apply_chat_template(messages, tokenize, add_generation_prompt)] *)
  apply_chat_template :
    Tokenizer -> list message -> bool -> bool -> result pyobj;
  (** [openai.OpenAI(timeout=timeout)] in a given environment: the client
      the library builds, or the exception it raises *)
  openai_OpenAI : dict string -> Z -> result OpenAIClient;
  (** [o += s] and [o + s] for an instance [o] of a class, by the class's
      own [__iadd__] and [__add__], and its truth value *)
  instance_iadd_str : string -> dict pyobj -> string -> result pyobj;
  instance_add_str : string -> dict pyobj -> string -> result pyobj;
  instance_truth : string -> dict pyobj -> bool
}.

(* ================================================================= *)
(** ** [list.sort(reverse=True, key=...)] on (similarity, query) pairs *)

(** The sort compares keys with [<] only. *)
Definition Qltb (a b : Q) : bool := negb (Qle_bool b a).

(** The sort is stable, also with [reverse=True]: of two entries with equal
    keys the one that came first stays first. *)
Fixpoint insert_desc {A} (x : Q * A) (l : list (Q * A)) : list (Q * A) :=
  match l with
  | [] => [x]
  | y :: l' =>
      if Qltb (fst x) (fst y) then y :: insert_desc x l' else x :: y :: l'
  end.

Definition sort_reverse_by_fst {A} (l : list (Q * A)) : list (Q * A) :=
  fold_right insert_desc [] l.

(** A list comprehension whose body may raise. *)
Fixpoint mapR {A B} (f : A -> result B) (l : list A) : result (list B) :=
  match l with
  | [] => Ok []
  | x :: l' =>
      y <-? f x ;;
      ys <-? mapR f l' ;;
      Ok (y :: ys)
  end.

(** A [for] loop that updates one variable and may raise. *)
Fixpoint foldR {A S} (f : S -> A -> result S) (l : list A) (s : S)
  : result S :=
  match l with
  | [] => Ok s
  | x :: l' =>
      s' <-? f s x ;;
      foldR f l' s'
  end.

(* ================================================================= *)
(** ** [openai_model.py] *)

Definition credential_missing : string :=
  "OPENAI_API_KEY not set, please run `export OPENAI_API_KEY=<your key>` to set it".

Definition system_message (content : pyobj) : message :=
  [("role", PyStr "system"); ("content", content)].

Definition user_message (content : pyobj) : message :=
  [("role", PyStr "user"); ("content", content)].

(** [response.choices[0].message.content] *)
Definition first_choice (choices : list pyobj) : result pyobj :=
  match choices with
  | c :: _ => Ok c
  | [] => Raise (IndexError "list index out of range")
  end.

(** The keywords [OpenAIChatModel.generate] passes to [create] itself. *)
Definition create_keywords : list string :=
  ["model"; "messages"; "temperature"; "max_tokens"; "top_p"; "n"; "stop";
   "response_format"; "seed"].

(** What the call of lines 165 to 168 binds before [**kwargs]: the seven
    positional parameters and the two explicit keywords. (Four of the names,
    [temperature], [top_p], [max_new_tokens] and [stop], are parameters of
    [AutoModel.generate] too, so a caller's keyword of that name never gets
    into its [**kwargs].) *)
Definition hosted_call_keywords : list string :=
  ["user_prompt"; "system_prompt"; "messages"; "temperature"; "top_p";
   "max_new_tokens"; "stop"; "num_return_sequences"; "stream"].

(** The [TypeError] of a call that binds a parameter twice. The wording of
    the message (the callee's qualified name, [argument] or
    [keyword argument]) varies with the interpreter; the theorems below state
    the class of the exception only. *)
Definition multiple_values (callee name : string) : exn :=
  TypeError (callee ++ "() got multiple values for keyword argument '"
               ++ name ++ "'").

Section Code.

Context `{RT : Runtime}.

(** [o += s] with [s] a str: a str is extended, a list takes the characters
    of [s] one by one, an instance does what its class says, and the other
    builtin types have no such operation. *)
Definition py_iadd_str (o : pyobj) (s : string) : result pyobj :=
  match o with
  | PyStr a => Ok (PyStr (a ++ s))
  | PyList items => Ok (PyList (items ++ chars_of s))
  | PyTuple _ => Raise (cannot_concatenate "tuple")
  | PyInst cls attrs => instance_iadd_str cls attrs s
  | _ => Raise (TypeError
                  ("unsupported operand type(s) for +=: '"
                     ++ py_type_name o ++ "' and 'str'"))
  end.

(** [o + s] with [s] a str. *)
Definition py_add_str (o : pyobj) (s : string) : result pyobj :=
  match o with
  | PyStr a => Ok (PyStr (a ++ s))
  | PyList _ => Raise (cannot_concatenate "list")
  | PyTuple _ => Raise (cannot_concatenate "tuple")
  | PyInst cls attrs => instance_add_str cls attrs s
  | _ => Raise (TypeError
                  ("unsupported operand type(s) for +: '"
                     ++ py_type_name o ++ "' and 'str'"))
  end.

(** The truth value [if o] takes. *)
Definition py_truth (o : pyobj) : bool :=
  match o with
  | PyInst cls attrs => instance_truth cls attrs
  | _ => builtin_truth o
  end.

(** [OpenAIChatModel.__init__] *)
Definition OpenAIChatModel_init (model_name : string) (timeout : Z)
  : M OpenAIChatModel :=
  API_KEY <- getenv "OPENAI_API_KEY" ;;
  match API_KEY with
  | None => raise (ValueError credential_missing)
  | Some key =>
      set_openai_api_key key ;;;
      c <- (fun w => (openai_OpenAI (environ w) timeout, w)) ;;
      ret {| openai_model_name := model_name; client := c |}
  end.

(** [self.client.chat.completions.create(...)]: one call to the hosted
    API, recorded whether or not the API answers. *)
Definition create (c : OpenAIClient) (req : chat_request)
  : M (list pyobj) :=
  emit (EvChatCompletion req) ;;;
  lift (chat_completions_create c req).

(** [OpenAIChatModel.generate] *)
Definition OpenAIChatModel_generate (self : OpenAIChatModel)
    (user_prompt system_prompt : pyobj) (messages : option (list message))
    (temperature top_p : Q) (max_new_tokens : Z) (stop : pyobj)
    (num_return_sequences : Z) (json_output : bool) (kwargs : dict pyobj)
  : M pyobj :=
  py_assert
    (negb (is_none user_prompt)
     || match messages with Some _ => true | None => false end)
    "Either give both system_prompt and user_prompt or give messages" ;;;
  messages <-
    match messages with
    | None =>
        py_assert (negb (is_none user_prompt))
          "user_prompt is required if you do not pass messages" ;;;
        if negb (is_none system_prompt)
        then ret [system_message system_prompt; user_message user_prompt]
        else ret [user_message user_prompt]
    | Some given => ret given
    end ;;
  response <-
    match repeated_keyword create_keywords kwargs with
    | Some name => raise (multiple_values "create" name)
    | None =>
    create (client self)
      {| req_model := openai_model_name self;
         req_messages := messages;
         req_temperature := temperature;
         req_max_tokens := max_new_tokens;
         req_top_p := top_p;
         req_n := num_return_sequences;
         req_stop := stop;
         req_response_format :=
           if json_output then Some [("type", PyStr "json_object")]
           else None;
         req_seed := 0;
         req_kwargs := kwargs |}
    end ;;
  if (num_return_sequences =? 1)%Z
  then lift (first_choice response)
  else ret (PyList response).

(* =============================================================== *)
(** ** [auto_model.py] *)

Definition default_prompt : string := "You are a helpful assistant".

(** [AutoModel._load_json] *)
Definition _load_json (file_path : string) : M (dict string) :=
  emit (EvOpen file_path "r") ;;;
  match json_files file_path with
  | Some members => ret (Dict.of_pairs members)
  | None => raise (FileNotFoundError file_path)
  end.

(** [AutoModel._compute_icl_query_embeddings] *)
Definition _compute_icl_query_embeddings
    (encode : string -> vector) (icl_examples : dict string) : dict vector :=
  fold_left (fun embeddings query => Dict.set query (encode query) embeddings)
    (Dict.keys icl_examples) [].

(** [AutoModel._get_top_k_icl_examples] *)
Definition _get_top_k_icl_examples (self : AutoModel) (query : string)
    (k : Z) : result (list (Q * string)) :=
  let query_embedding := embedding_model self query in
  icl_sims <-?
    mapR (fun icl_query =>
            e <-? Dict.getitem icl_query (icl_query_embeddings self) ;;
            Ok (cos_sim e query_embedding, icl_query))
         (Dict.keys (icl_query_embeddings self)) ;;
  Ok (py_slice_to k (sort_reverse_by_fst icl_sims)).

(** [with open(prompt_path, 'rb') as f: pickle.load(f)] *)
Definition pickle_load (prompt_path : string) : M pyobj :=
  emit (EvOpen prompt_path "rb") ;;;
  match pickle_files prompt_path with
  | Some o => ret o
  | None => raise (FileNotFoundError prompt_path)
  end.

(** [prompt_file.terminal_node.state[-1].system_prompt] *)
Definition nested_system_prompt (prompt_file : pyobj) : result pyobj :=
  terminal_node <-? py_getattr prompt_file "terminal_node" ;;
  state <-? py_getattr terminal_node "state" ;;
  last_state <-? py_index_last state ;;
  py_getattr last_state "system_prompt".

(** The [try] / bare [except] of lines 86 to 89. *)
Definition extract_model_prompt (prompt_file : pyobj) : pyobj :=
  match nested_system_prompt prompt_file with
  | Ok model_prompt => model_prompt
  | Raise _ => prompt_file
  end.

(** Lines 83 to 91: unpickle the artifact at [prompt_path] and take the
    prompt out of it. *)
Definition load_prompt_artifact (prompt_path : string) : M pyobj :=
  prompt_file <- pickle_load prompt_path ;;
  ret (extract_model_prompt prompt_file).

(** [AutoModel._load_optimized_prompt], on the two attributes of [self]
    it reads. *)
Definition _load_optimized_prompt (model : backend)
    (model_mapping : dict string) : M pyobj :=
  if negb (Dict.mem (model_name model) model_mapping) then
    print ("We currently do not have optimized prompt for: "
             ++ model_name model ++ ".") ;;;
    ret (PyStr default_prompt)
  else
    prompt_path <- lift (Dict.call model_mapping (model_name model)) ;;
    load_prompt_artifact prompt_path.

(** [AutoModel.__init__] *)
Definition AutoModel_init (model_name : string) (num_gpus : Z)
    (cuda_visible_devices dtype : string) (gpu_memory_utilization : Q)
    (max_model_len : option Z) (timeout : Z) (open_ai_model : bool)
    (kwargs : dict pyobj) : M AutoModel :=
  setenv "CUDA_VISIBLE_DEVICES" cuda_visible_devices ;;;
  model_mapping <- _load_json "./data/model_mapping.json" ;;
  icl_examples <- _load_json "./data/ICL_examples.json" ;;
  encode <- lift (SentenceTransformer "all-mpnet-base-v2") ;;
  let icl_query_embeddings :=
    _compute_icl_query_embeddings encode icl_examples in
  model <-
    (if open_ai_model
     then m <- OpenAIChatModel_init model_name timeout ;; ret (Hosted m)
     else m <- lift (VLLMModel_init model_name num_gpus dtype
                       gpu_memory_utilization max_model_len kwargs) ;;
          ret (SelfHosted m)) ;;
  optimized_prompt <- _load_optimized_prompt model model_mapping ;;
  ret {| model_mapping := model_mapping;
         icl_examples := icl_examples;
         embedding_model := encode;
         icl_query_embeddings := icl_query_embeddings;
         model := model;
         optimized_prompt := optimized_prompt |}.

(** One appended example: ['\n\n#Query:\n' + q + '\n\n#Answer:\n' + a]. *)
Definition icl_block (icl_query answer : string) : string :=
  nl ++ nl ++ "#Query:" ++ nl ++ icl_query
     ++ nl ++ nl ++ "#Answer:" ++ nl ++ answer.

(** [AutoModel._prepare_system_prompt] *)
Definition _prepare_system_prompt (self : AutoModel)
    (optimized_prompt optimized_icl : bool) (num_optimized_icl : Z)
    (user_query : string) : result pyobj :=
  let prompt :=
    if optimized_prompt then self_optimized_prompt self
    else PyStr default_prompt in
  if optimized_icl then
    top_icl_queries <-?
      _get_top_k_icl_examples self user_query num_optimized_icl ;;
    foldR (fun prompt sim_query =>
             answer <-? Dict.getitem (snd sim_query) (icl_examples self) ;;
             py_iadd_str prompt (icl_block (snd sim_query) answer))
          top_icl_queries prompt
  else Ok prompt.

(** [AutoModel._prepare_chat_llm_prompt] *)
Definition _prepare_chat_llm_prompt (tok : Tokenizer)
    (system_prompt user_prompt : pyobj) : result pyobj :=
  let messages := [system_message system_prompt; user_message user_prompt] in
  apply_chat_template tok messages false true.

(** [tokenizer.<name>] *)
Definition tokenizer_getattr (tok : Tokenizer) (name : string)
  : result pyobj :=
  py_getattr (PyInst (tok_class tok) (tok_attrs tok)) name.

(** [self.model.generate(prompt, ...)] on the self-hosted engine. *)
Definition engine_generate (m : VLLMModel) (req : engine_request)
  : M pyobj :=
  emit (EvEngineGenerate req) ;;;
  lift (VLLMModel_generate m req).

(** The user turn: [f"# Query:\n{user_query}\n\n# Answer:\n<START>"]. *)
Definition user_turn (user_query : string) : string :=
  "# Query:" ++ nl ++ user_query ++ nl ++ nl ++ "# Answer:" ++ nl ++ "<START>".

(** [AutoModel.generate] *)
Definition AutoModel_generate (self : AutoModel) (user_query : string)
    (optimized_prompt optimized_icl : bool) (num_optimized_icl : Z)
    (temperature top_p : Q) (max_new_tokens : Z) (stop : pyobj)
    (kwargs : dict pyobj) : M pyobj :=
  (if optimized_icl
   then py_assert (0 <? num_optimized_icl)%Z
          "Number of ICL examples should be > 0"
   else ret tt) ;;;
  system_prompt <-
    lift (_prepare_system_prompt self optimized_prompt optimized_icl
            num_optimized_icl user_query) ;;
  let user_prompt := PyStr (user_turn user_query) in
  match model self with
  | Hosted m =>
      match repeated_keyword hosted_call_keywords kwargs with
      | Some name => raise (multiple_values "generate" name)
      | None =>
          let json_output :=
            match Dict.get "json_output" kwargs with
            | Some flag => py_truth flag
            | None => false
            end in
          OpenAIChatModel_generate m user_prompt system_prompt None
            temperature top_p max_new_tokens stop 1 json_output
            (("stream", PyBool false) :: without_key "json_output" kwargs)
      end
  | SelfHosted m =>
      chat_template <-
        lift (tokenizer_getattr (tokenizer m) "chat_tempalte") ;;
      prompt <-
        (if negb (is_none chat_template)
         then lift (_prepare_chat_llm_prompt (tokenizer m)
                      system_prompt user_prompt)
         else lift (s <-? py_add_str system_prompt (nl ++ nl) ;;
                    py_add_str s (user_turn user_query))) ;;
      engine_generate m
        {| eng_prompt := prompt;
           eng_temperature := temperature;
           eng_top_p := top_p;
           eng_max_new_tokens := max_new_tokens;
           eng_stop := stop;
           eng_kwargs := kwargs |}
  end.

(** What [__init__] establishes and nothing changes afterwards: the
    example set is a dict, and the index holds the embedding of each of
    its queries. *)
Definition constructed (self : AutoModel) : Prop :=
  NoDup (Dict.keys (icl_examples self))
  /\ icl_query_embeddings self
     = _compute_icl_query_embeddings (embedding_model self)
         (icl_examples self).

(** The (similarity, query) pair of every stored example, in the order of
    the example set. *)
Definition all_similarities (self : AutoModel) (query : string)
  : list (Q * string) :=
  map (fun icl_query =>
         (cos_sim (embedding_model self icl_query)
            (embedding_model self query), icl_query))
      (Dict.keys (icl_examples self)).

(** The answer the example set stores for a query. *)
Definition answer_of (self : AutoModel) (icl_query : string) : string :=
  match Dict.get icl_query (icl_examples self) with
  | Some a => a
  | None => ""
  end.

(** The blocks of a sequence of retrieved examples, one after the other. *)
Definition icl_blocks (self : AutoModel) (top : list (Q * string)) : string :=
  fold_right String.append ""
    (map (fun sim_query =>
            icl_block (snd sim_query) (answer_of self (snd sim_query)))
         top).

(** The base prompt chosen by the [optimized_prompt] flag. *)
Definition base_prompt (self : AutoModel) (optimized_prompt : bool) : pyobj :=
  if optimized_prompt then self_optimized_prompt self
  else PyStr default_prompt.

(** Non-increasing similarity along a sequence of pairs. *)
Definition non_increasing (l : list (Q * string)) : Prop :=
  StronglySorted (fun a b => fst b <= fst a)%Q l.

(** The backend calls among the events recorded so far. *)
Definition backend_calls (w : world) : list event :=
  filter is_backend_call (trace w).

Definition file_opens (w : world) : list event :=
  filter is_open (trace w).

(** [w] after one more recorded event. *)
Definition record_event (ev : event) (w : world) : world :=
  {| environ := environ w;
     openai_api_key := openai_api_key w;
     trace := trace w ++ [ev] |}.

(** The request [OpenAIChatModel.generate] sends for given messages. *)
Definition chat_request_of (self : OpenAIChatModel) (messages : list message)
    (temperature top_p : Q) (max_new_tokens : Z) (stop : pyobj)
    (num_return_sequences : Z) (json_output : bool) (kwargs : dict pyobj)
  : chat_request :=
  {| req_model := openai_model_name self;
     req_messages := messages;
     req_temperature := temperature;
     req_max_tokens := max_new_tokens;
     req_top_p := top_p;
     req_n := num_return_sequences;
     req_stop := stop;
     req_response_format :=
       if json_output then Some [("type", PyStr "json_object")] else None;
     req_seed := 0;
     req_kwargs := kwargs |}.

(** What the caller gets back from the choices of a response. *)
Definition returned (num_return_sequences : Z) (response : result (list pyobj))
  : result pyobj :=
  choices <-? response ;;
  if (num_return_sequences =? 1)%Z then first_choice choices
  else Ok (PyList choices).

(** The sampling parameters a recorded backend call carries. *)
Definition carries (temperature top_p : Q) (ev : event) : Prop :=
  match ev with
  | EvChatCompletion req =>
      req_temperature req = temperature /\ req_top_p req = top_p
  | EvEngineGenerate req =>
      eng_temperature req = temperature /\ eng_top_p req = top_p
  | _ => True
  end.

End Code.

(* ================================================================= *)
(** ** Vocabulary for the effects and edge cases of the code *)

(** Every event a computation records satisfies [P]. *)
Definition records {A} (P : event -> Prop) (m : M A) : Prop :=
  forall w, exists evs,
    trace (snd (m w)) = trace w ++ evs /\ Forall P evs.

(** The events of a construction: the two JSON files, and printed lines. *)
Definition init_event (ev : event) : Prop :=
  ev = EvOpen "./data/model_mapping.json" "r"
  \/ ev = EvOpen "./data/ICL_examples.json" "r"
  \/ exists line, ev = EvPrint line.

(** Keyword arguments that repeat nothing the hosted route binds or
    passes itself, at the call of lines 165 to 168 or at the call of
    [create], and that do not name [json_output]. *)
Definition plain_kwargs (kwargs : dict pyobj) : Prop :=
  forall k,
    In k (map fst kwargs) ->
    ~ In k ["user_prompt"; "system_prompt"; "messages"; "temperature";
            "top_p"; "max_new_tokens"; "stop"; "num_return_sequences";
            "stream"; "json_output"; "model"; "max_tokens"; "n";
            "response_format"; "seed"].

(** A request with other sampling parameters, all else equal. *)
Definition chat_resample (req : chat_request) (temperature top_p : Q)
  : chat_request :=
  {| req_model := req_model req;
     req_messages := req_messages req;
     req_temperature := temperature;
     req_max_tokens := req_max_tokens req;
     req_top_p := top_p;
     req_n := req_n req;
     req_stop := req_stop req;
     req_response_format := req_response_format req;
     req_seed := req_seed req;
     req_kwargs := req_kwargs req |}.

Definition engine_resample (req : engine_request) (temperature top_p : Q)
  : engine_request :=
  {| eng_prompt := eng_prompt req;
     eng_temperature := temperature;
     eng_top_p := top_p;
     eng_max_new_tokens := eng_max_new_tokens req;
     eng_stop := eng_stop req;
     eng_kwargs := eng_kwargs req |}.

(** Backends whose answer does not depend on the sampling parameters. *)
Definition sampling_blind `{RT : Runtime} : Prop :=
  (forall c req temperature top_p,
     chat_completions_create c (chat_resample req temperature top_p)
     = chat_completions_create c req)
  /\ (forall m req temperature top_p,
        VLLMModel_generate m (engine_resample req temperature top_p)
        = VLLMModel_generate m req).

(** The entries of a ranking whose similarity equals [s]. *)
Definition same_score (s : Q) (entry : Q * string) : bool :=
  Qeq_bool (fst entry) s.

(* ================================================================= *)
(** ** A small concrete installation, to run the code on *)

Module Fixtures.

Definition dot (a b : vector) : Q :=
  fold_right Qplus 0%Q (map (fun xy => (fst xy * snd xy)%Q) (combine a b)).

(** A toy embedding: the length of the text and a constant. *)
Definition toy_encode (text : string) : vector :=
  [inject_Z (Z.of_nat (String.length text)); 1%Q].

Definition structured_artifact : pyobj :=
  PyInst "SearchResult"
    [("terminal_node",
      PyInst "Node"
        [("state",
          PyList [PyInst "State" [("system_prompt", PyStr "first")];
                  PyInst "State" [("system_prompt", PyStr "Be precise.")]])])].

Definition plain_artifact : pyobj := PyStr "Answer briefly.".

Definition templating_tokenizer : Tokenizer :=
  {| tok_class := "LlamaTokenizerFast";
     tok_attrs := [("chat_template", PyStr "{% for m in messages %}...")] |}.

Definition plain_tokenizer : Tokenizer :=
  {| tok_class := "GPT2TokenizerFast";
     tok_attrs := [("chat_template", PyNone)] |}.

(** A client constructor that takes the key from the environment and
    refuses a missing or an empty one, as [openai.OpenAI] does. *)
Definition library_client (env : dict string) (timeout : Z)
  : result OpenAIClient :=
  match Dict.get "OPENAI_API_KEY" env with
  | None => Raise (BackendError "OpenAIError: the api_key client option must be set")
  | Some key =>
      if String.eqb key ""
      then Raise (BackendError "OpenAIError: the api_key client option must be set")
      else Ok {| client_timeout := timeout; client_api_key := key |}
  end.

(** Instances of classes that define no operator of their own. *)
Definition plain_instance_op (op cls : string) (attrs : dict pyobj)
    (s : string) : result pyobj :=
  Raise (TypeError ("unsupported operand type(s) for " ++ op ++ ": '"
                      ++ cls ++ "' and 'str'")).

(** Backends that accept whatever they are sent. *)
Definition runtime : Runtime :=
  {| cos_sim := dot;
     SentenceTransformer := fun _ => Ok toy_encode;
     json_files := fun path =>
       if String.eqb path "./data/model_mapping.json"
       then Some [("gpt-3.5-turbo", "./prompts/gpt35.pkl");
                  ("llama-3-8b", "./prompts/llama3.pkl")]
       else if String.eqb path "./data/ICL_examples.json"
       then Some [("What is 2+2?", "4");
                  ("Name a colour.", "Blue");
                  ("Hi", "Hello!")]
       else None;
     pickle_files := fun path =>
       if String.eqb path "./prompts/gpt35.pkl" then Some structured_artifact
       else if String.eqb path "./prompts/llama3.pkl" then Some plain_artifact
       else None;
     chat_completions_create := fun _ _ => Ok [PyStr "ok"];
     VLLMModel_init := fun name _ _ _ _ _ =>
       Ok {| vllm_model_name := name; tokenizer := templating_tokenizer |};
     VLLMModel_generate := fun _ _ => Ok (PyStr "ok");
     apply_chat_template := fun _ _ _ _ => Ok (PyStr "<templated>");
     openai_OpenAI := library_client;
     instance_iadd_str := plain_instance_op "+=";
     instance_add_str := plain_instance_op "+";
     instance_truth := fun _ _ => true |}.

Definition world0 : world :=
  {| environ := [("OPENAI_API_KEY", "sk-test")];
     openai_api_key := None;
     trace := [] |}.

(** The credential variable is set, to the empty string. *)
Definition world_empty_key : world :=
  {| environ := [("OPENAI_API_KEY", "")];
     openai_api_key := None;
     trace := [] |}.

Definition world_no_key : world :=
  {| environ := [("HOME", "/root")];
     openai_api_key := None;
     trace := [] |}.

Definition examples : dict string :=
  [("What is 2+2?", "4"); ("Name a colour.", "Blue"); ("Hi", "Hello!")].

Definition hosted_model : OpenAIChatModel :=
  {| openai_model_name := "gpt-3.5-turbo";
     client := {| client_timeout := 600; client_api_key := "sk-test" |} |}.

Definition engine_model (tok : Tokenizer) : VLLMModel :=
  {| vllm_model_name := "llama-3-8b"; tokenizer := tok |}.

Definition auto_model (b : backend) : AutoModel :=
  {| model_mapping := [("gpt-3.5-turbo", "./prompts/gpt35.pkl");
                       ("llama-3-8b", "./prompts/llama3.pkl")];
     icl_examples := examples;
     embedding_model := toy_encode;
     icl_query_embeddings :=
       _compute_icl_query_embeddings toy_encode examples;
     model := b;
     optimized_prompt := PyStr "Be precise." |}.

(** Tokenizer objects that do carry an attribute spelt [chat_tempalte]. *)
Definition patched_tokenizer : Tokenizer :=
  {| tok_class := "PatchedTokenizer";
     tok_attrs := [("chat_tempalte", PyStr "{{ messages }}")] |}.

Definition patched_plain_tokenizer : Tokenizer :=
  {| tok_class := "PatchedTokenizer";
     tok_attrs := [("chat_tempalte", PyNone)] |}.

(** An installation whose hosted API is down. *)
Definition failing_runtime : Runtime :=
  {| cos_sim := dot;
     SentenceTransformer := fun _ => Ok toy_encode;
     json_files := @json_files runtime;
     pickle_files := @pickle_files runtime;
     chat_completions_create := fun _ _ =>
       Raise (BackendError "503 Service Unavailable");
     VLLMModel_init := @VLLMModel_init runtime;
     VLLMModel_generate := fun _ _ => Raise (BackendError "engine stopped");
     apply_chat_template := fun _ _ _ _ => Ok (PyStr "<templated>");
     openai_OpenAI := library_client;
     instance_iadd_str := plain_instance_op "+=";
     instance_add_str := plain_instance_op "+";
     instance_truth := fun _ _ => true |}.

(** An installation whose hosted API answers with three choices. *)
Definition three_choice_runtime : Runtime :=
  {| cos_sim := dot;
     SentenceTransformer := fun _ => Ok toy_encode;
     json_files := @json_files runtime;
     pickle_files := @pickle_files runtime;
     chat_completions_create := fun _ _ =>
       Ok [PyStr "first"; PyStr "second"; PyStr "third"];
     VLLMModel_init := @VLLMModel_init runtime;
     VLLMModel_generate := fun _ _ => Ok (PyStr "ok");
     apply_chat_template := fun _ _ _ _ => Ok (PyStr "<templated>");
     openai_OpenAI := library_client;
     instance_iadd_str := plain_instance_op "+=";
     instance_add_str := plain_instance_op "+";
     instance_truth := fun _ _ => true |}.

(** An installation with no data files: only the registry, or none. *)
Definition registry_only_runtime : Runtime :=
  {| cos_sim := dot;
     SentenceTransformer := fun _ => Ok toy_encode;
     json_files := fun path =>
       if String.eqb path "./data/model_mapping.json"
       then Some [("gpt-3.5-turbo", "./prompts/gpt35.pkl")]
       else None;
     pickle_files := fun _ => None;
     chat_completions_create := fun _ _ => Ok [PyStr "ok"];
     VLLMModel_init := @VLLMModel_init runtime;
     VLLMModel_generate := fun _ _ => Ok (PyStr "ok");
     apply_chat_template := fun _ _ _ _ => Ok (PyStr "<templated>");
     openai_OpenAI := library_client;
     instance_iadd_str := plain_instance_op "+=";
     instance_add_str := plain_instance_op "+";
     instance_truth := fun _ _ => true |}.

Definition empty_runtime : Runtime :=
  {| cos_sim := dot;
     SentenceTransformer := fun _ => Ok toy_encode;
     json_files := fun _ => None;
     pickle_files := fun _ => None;
     chat_completions_create := fun _ _ => Ok [PyStr "ok"];
     VLLMModel_init := @VLLMModel_init runtime;
     VLLMModel_generate := fun _ _ => Ok (PyStr "ok");
     apply_chat_template := fun _ _ _ _ => Ok (PyStr "<templated>");
     openai_OpenAI := library_client;
     instance_iadd_str := plain_instance_op "+=";
     instance_add_str := plain_instance_op "+";
     instance_truth := fun _ _ => true |}.

(** An orchestrator over an empty example set. *)
Definition no_examples_model : AutoModel :=
  {| model_mapping := [];
     icl_examples := [];
     embedding_model := toy_encode;
     icl_query_embeddings := _compute_icl_query_embeddings toy_encode [];
     model := Hosted hosted_model;
     optimized_prompt := PyStr "Be precise." |}.

(** Two examples at the same distance from any query, and a third. *)
Definition tied_examples : dict string :=
  [("bb", "second"); ("aa", "first"); ("cccc", "third")].

Definition tied_model : AutoModel :=
  {| model_mapping := [];
     icl_examples := tied_examples;
     embedding_model := toy_encode;
     icl_query_embeddings :=
       _compute_icl_query_embeddings toy_encode tied_examples;
     model := Hosted hosted_model;
     optimized_prompt := PyStr "Be precise." |}.

End Fixtures.

(* ================================================================= *)
(** ** Dictionaries *)

Section DictFacts.

Context {V : Type}.
Implicit Types (d : dict V) (k : string) (v : V).

Lemma get_some_in_keys k d v :
  Dict.get k d = Some v -> In k (Dict.keys d).
Proof.
  induction d as [|[k' v'] d IH]; simpl; [discriminate|].
  destruct (String.eqb_spec k k') as [->|Hne]; auto.
Qed.

Lemma in_keys_get_some k d :
  In k (Dict.keys d) -> exists v, Dict.get k d = Some v.
Proof.
  induction d as [|[k' v'] d IH]; simpl; [tauto|].
  intros Hin. destruct (String.eqb_spec k k') as [->|Hne]; [eauto|].
  destruct Hin as [Heq|Hin]; [congruence | auto].
Qed.

Lemma get_of_entry k v d :
  NoDup (Dict.keys d) -> In (k, v) d -> Dict.get k d = Some v.
Proof.
  induction d as [|[k' v'] d IH]; simpl; [tauto|].
  intros Hnd [Heq|Hin].
  - inversion Heq; subst. now rewrite String.eqb_refl.
  - inversion Hnd as [|? ? Hnotin Hnd']; subst.
    destruct (String.eqb_spec k k') as [->|Hne]; [|auto].
    exfalso. apply Hnotin. change k' with (fst (k', v)).
    now apply in_map.
Qed.

Lemma set_fresh k v d :
  ~ In k (Dict.keys d) -> Dict.set k v d = d ++ [(k, v)].
Proof.
  induction d as [|[k' v'] d IH]; simpl; intros Hnotin; [reflexivity|].
  destruct (String.eqb_spec k k') as [->|Hne]; [tauto|].
  rewrite IH; tauto.
Qed.

Lemma keys_set k v d :
  Dict.keys (Dict.set k v d)
  = if Dict.mem k d then Dict.keys d else Dict.keys d ++ [k].
Proof.
  unfold Dict.mem.
  induction d as [|[k' v'] d IH]; simpl; [reflexivity|].
  destruct (String.eqb_spec k k') as [->|Hne]; simpl; [reflexivity|].
  rewrite IH. now destruct (Dict.get k d).
Qed.

Lemma set_keeps_NoDup k v d :
  NoDup (Dict.keys d) -> NoDup (Dict.keys (Dict.set k v d)).
Proof.
  intros Hnd. rewrite keys_set. unfold Dict.mem.
  destruct (Dict.get k d) eqn:Hget; [assumption|].
  apply NoDup_app; [assumption | repeat constructor; simpl; tauto |].
  intros x Hx [<-|[]].
  destruct (in_keys_get_some _ _ Hx) as [v' Hv']. congruence.
Qed.

Lemma of_pairs_NoDup (kvs : list (string * V)) :
  NoDup (Dict.keys (Dict.of_pairs kvs)).
Proof.
  unfold Dict.of_pairs.
  assert (H : forall d, NoDup (Dict.keys d) ->
              NoDup (Dict.keys
                       (fold_left (fun d kv => Dict.set (fst kv) (snd kv) d)
                          kvs d))).
  { induction kvs as [|kv kvs IH]; simpl; intros d Hd; [assumption|].
    apply IH. now apply set_keeps_NoDup. }
  apply H. constructor.
Qed.

Lemma fold_set_fresh (f : string -> V) ks d :
  NoDup ks ->
  (forall k, In k ks -> ~ In k (Dict.keys d)) ->
  fold_left (fun e q => Dict.set q (f q) e) ks d
  = d ++ map (fun q => (q, f q)) ks.
Proof.
  revert d. induction ks as [|q ks IH]; simpl; intros d Hnd Hfresh.
  - now rewrite app_nil_r.
  - inversion Hnd as [|? ? Hq Hks]; subst.
    rewrite set_fresh by auto.
    rewrite IH; [now rewrite <- app_assoc | assumption |].
    intros k Hk. unfold Dict.keys. rewrite map_app, in_app_iff. simpl.
    intros [Hin|[->|[]]]; [eapply Hfresh; eauto | tauto].
Qed.

End DictFacts.

(* ================================================================= *)
(** ** The descending stable sort *)

Section SortFacts.

Context {A : Type}.
Implicit Types (x : Q * A) (l : list (Q * A)).

Local Abbreviation ge := (fun a b : Q * A => (fst b <= fst a)%Q).

Lemma Qltb_true a b : Qltb a b = true -> (a <= b)%Q.
Proof.
  unfold Qltb. rewrite negb_true_iff. intros H.
  destruct (Qlt_le_dec b a) as [Hlt|Hle]; [|assumption].
  apply Qlt_le_weak in Hlt. apply Qle_bool_iff in Hlt. congruence.
Qed.

Lemma Qltb_false a b : Qltb a b = false -> (b <= a)%Q.
Proof.
  unfold Qltb. rewrite negb_false_iff. apply Qle_bool_iff.
Qed.

Lemma insert_desc_perm x l : Permutation (insert_desc x l) (x :: l).
Proof.
  induction l as [|y l IH]; simpl; [reflexivity|].
  destruct (Qltb (fst x) (fst y)); [|reflexivity].
  rewrite IH. apply perm_swap.
Qed.

Lemma sort_reverse_perm l : Permutation (sort_reverse_by_fst l) l.
Proof.
  induction l as [|x l IH]; simpl; [reflexivity|].
  rewrite insert_desc_perm. now constructor.
Qed.

Lemma insert_desc_sorted x l :
  StronglySorted ge l -> StronglySorted ge (insert_desc x l).
Proof.
  induction 1 as [|y l Hs IH Hall]; simpl.
  - repeat constructor.
  - destruct (Qltb (fst x) (fst y)) eqn:Hcmp.
    + constructor; [assumption|].
      eapply Permutation_Forall; [symmetry; apply insert_desc_perm|].
      constructor; [|assumption].
      now apply Qltb_true.
    + apply Qltb_false in Hcmp.
      constructor; [now constructor|].
      constructor; [assumption|].
      eapply Forall_impl; [|exact Hall].
      intros z Hz. simpl in *. eapply Qle_trans; eassumption.
Qed.

Lemma sort_reverse_sorted l : StronglySorted ge (sort_reverse_by_fst l).
Proof.
  induction l as [|x l IH]; simpl; [constructor|].
  now apply insert_desc_sorted.
Qed.

Lemma sorted_prefix (R : Q * A -> Q * A -> Prop) l1 l2 :
  StronglySorted R (l1 ++ l2) -> StronglySorted R l1.
Proof.
  induction l1 as [|x l1 IH]; simpl; intros H; [constructor|].
  inversion H as [|? ? Hs Hall]; subst.
  constructor; [auto|].
  rewrite Forall_app in Hall. tauto.
Qed.

End SortFacts.

(* ================================================================= *)
(** ** Strings *)

Lemma append_empty_r (s : string) : (s ++ "")%string = s.
Proof. induction s; simpl; congruence. Qed.

Lemma append_assoc (s t u : string) :
  ((s ++ t) ++ u = s ++ t ++ u)%string.
Proof. induction s; simpl; congruence. Qed.

(* ================================================================= *)
(** ** Retrieval and prompt assembly *)

Section Retrieval.

Context `{RT : Runtime}.

Lemma embeddings_of_dict (encode : string -> vector) (examples : dict string) :
  NoDup (Dict.keys examples) ->
  _compute_icl_query_embeddings encode examples
  = map (fun q => (q, encode q)) (Dict.keys examples).
Proof.
  intros Hnd. unfold _compute_icl_query_embeddings.
  rewrite fold_set_fresh; [reflexivity | assumption | simpl; tauto].
Qed.

Lemma embeddings_keys (encode : string -> vector) (examples : dict string) :
  NoDup (Dict.keys examples) ->
  Dict.keys (_compute_icl_query_embeddings encode examples)
  = Dict.keys examples.
Proof.
  intros Hnd. rewrite embeddings_of_dict by assumption.
  unfold Dict.keys at 1. rewrite map_map. simpl. apply map_id.
Qed.

(** The comprehension over an index never misses a key of that index. *)
Lemma comprehension_total (f : vector -> Q) (index part : dict vector) :
  NoDup (Dict.keys index) ->
  incl part index ->
  mapR (fun icl_query =>
          e <-? Dict.getitem icl_query index ;; Ok (f e, icl_query))
       (Dict.keys part)
  = Ok (map (fun entry => (f (snd entry), fst entry)) part).
Proof.
  intros Hnd. induction part as [|[q e] part IH]; simpl; intros Hincl.
  - reflexivity.
  - unfold Dict.getitem at 1.
    rewrite (get_of_entry q e index) by (auto using in_eq).
    simpl. fold (Dict.keys part).
    rewrite IH; [reflexivity|].
    intros x Hx. apply Hincl. now right.
Qed.

Lemma top_k_of_constructed (self : AutoModel) (query : string) (k : Z) :
  constructed self ->
  _get_top_k_icl_examples self query k
  = Ok (py_slice_to k (sort_reverse_by_fst (all_similarities self query))).
Proof.
  intros [Hnd Hidx]. unfold _get_top_k_icl_examples.
  rewrite (comprehension_total _ _ (icl_query_embeddings self)).
  - simpl. do 3 f_equal. unfold all_similarities.
    rewrite Hidx, embeddings_of_dict by assumption.
    now rewrite map_map.
  - rewrite Hidx, embeddings_keys; assumption.
  - apply incl_refl.
Qed.

Lemma slice_is_prefix {A} (k : Z) (l : list A) :
  exists rest, py_slice_to k l ++ rest = l.
Proof.
  unfold py_slice_to.
  destruct (0 <=? k)%Z; eexists; apply firstn_skipn.
Qed.

Lemma slice_length {A} (k : Z) (l : list A) :
  (1 <= k)%Z ->
  Z.of_nat (List.length (py_slice_to k l)) = Z.min k (Z.of_nat (List.length l)).
Proof.
  intros Hk. unfold py_slice_to.
  destruct (Z.leb_spec 0 k); [|lia].
  rewrite length_firstn. lia.
Qed.

Lemma in_all_similarities (self : AutoModel) (query : string) s q :
  In (s, q) (all_similarities self query) ->
  In q (Dict.keys (icl_examples self))
  /\ s = cos_sim (embedding_model self q) (embedding_model self query).
Proof.
  unfold all_similarities. rewrite in_map_iff.
  intros [q' [Heq Hin]]. inversion Heq; subst. auto.
Qed.

(** C5. For a constructed orchestrator, every query and every [k >= 1],
    [_get_top_k_icl_examples] returns [min(k, |ExampleSet|)] pairs; they are
    the head of a ranking of the (cosine similarity, example query) pairs of
    all stored examples by non-increasing similarity, so they are themselves
    in non-increasing order and nothing left out is more similar. *)
Theorem top_k_length_and_order (self : AutoModel) (query : string) (k : Z) :
  constructed self ->
  (1 <= k)%Z ->
  exists top rest,
    _get_top_k_icl_examples self query k = Ok top
    /\ Z.of_nat (List.length top)
       = Z.min k (Z.of_nat (List.length (icl_examples self)))
    /\ non_increasing top
    /\ non_increasing (top ++ rest)
    /\ Permutation (top ++ rest) (all_similarities self query).
Proof.
  intros Hc Hk.
  destruct (slice_is_prefix k (sort_reverse_by_fst (all_similarities self query)))
    as [rest Hrest].
  exists (py_slice_to k (sort_reverse_by_fst (all_similarities self query))), rest.
  assert (Hsorted : non_increasing
                      (sort_reverse_by_fst (all_similarities self query)))
    by apply sort_reverse_sorted.
  split; [now apply top_k_of_constructed|].
  split.
  { rewrite slice_length by assumption. f_equal.
    rewrite (Permutation_length (sort_reverse_perm _)).
    unfold all_similarities, Dict.keys. now rewrite !length_map. }
  rewrite Hrest.
  split; [|split].
  - rewrite <- Hrest in Hsorted. exact (sorted_prefix _ _ _ Hsorted).
  - exact Hsorted.
  - apply sort_reverse_perm.
Qed.

Lemma top_k_entries (self : AutoModel) (query : string) (k : Z) top :
  constructed self ->
  _get_top_k_icl_examples self query k = Ok top ->
  forall s q, In (s, q) top -> In q (Dict.keys (icl_examples self)).
Proof.
  intros Hc Htop s q Hin.
  rewrite top_k_of_constructed in Htop by assumption.
  inversion Htop; subst; clear Htop.
  destruct (slice_is_prefix k (sort_reverse_by_fst (all_similarities self query)))
    as [rest Hrest].
  assert (Hin' : In (s, q) (sort_reverse_by_fst (all_similarities self query))).
  { rewrite <- Hrest. apply in_or_app. now left. }
  apply (Permutation_in _ (sort_reverse_perm _)) in Hin'.
  now apply in_all_similarities in Hin'.
Qed.

Lemma append_blocks (self : AutoModel) (top : list (Q * string)) :
  (forall s q, In (s, q) top -> In q (Dict.keys (icl_examples self))) ->
  forall base,
    foldR (fun prompt sim_query =>
             answer <-? Dict.getitem (snd sim_query) (icl_examples self) ;;
             py_iadd_str prompt (icl_block (snd sim_query) answer))
          top (PyStr base)
    = Ok (PyStr (base ++ icl_blocks self top)).
Proof.
  induction top as [|[s q] top IH]; intros Hkeys base; simpl.
  - unfold icl_blocks. simpl. now rewrite append_empty_r.
  - destruct (in_keys_get_some q (icl_examples self)) as [a Ha];
      [eapply Hkeys; left; reflexivity|].
    unfold Dict.getitem at 1. rewrite Ha. simpl.
    rewrite IH by (intros; eapply Hkeys; right; eassumption).
    unfold icl_blocks, answer_of. simpl. rewrite Ha.
    now rewrite append_assoc.
Qed.

End Retrieval.

(* ================================================================= *)
(** ** Running effectful code *)

Lemma bind_ok_inv {A B} (m : M A) (k : A -> M B) w b w' :
  bind m k w = (Ok b, w') ->
  exists a w1, m w = (Ok a, w1) /\ k a w1 = (Ok b, w').
Proof.
  unfold bind. destruct (m w) as [[a|e] w1]; [eauto | discriminate].
Qed.

Lemma bind_ok {A B} (m : M A) (k : A -> M B) w a w1 :
  m w = (Ok a, w1) -> bind m k w = k a w1.
Proof. unfold bind. now intros ->. Qed.

(* ================================================================= *)
(** ** Keyword arguments *)

Lemma repeated_keyword_none (bound : list string) (kwargs : dict pyobj) :
  (forall k, In k (map fst kwargs) -> ~ In k bound) ->
  repeated_keyword bound kwargs = None.
Proof.
  intros Hfree. unfold repeated_keyword.
  destruct (find _ _) as [name|] eqn:Hfind; [|reflexivity].
  apply find_some in Hfind as [Hin Hbound].
  apply existsb_exists in Hbound as [b [Hb Heq]].
  apply String.eqb_eq in Heq. subst b. now elim (Hfree name).
Qed.

Lemma repeated_keyword_some (bound : list string) (kwargs : dict pyobj) k :
  In k (map fst kwargs) -> In k bound ->
  exists name, repeated_keyword bound kwargs = Some name.
Proof.
  intros Hin Hbound. unfold repeated_keyword.
  destruct (find _ _) as [name|] eqn:Hfind; [eauto|].
  pose proof (find_none _ _ Hfind k Hin) as Hk. simpl in Hk.
  assert (Hex : existsb (String.eqb k) bound = true).
  { apply existsb_exists. exists k. split; [assumption|].
    apply String.eqb_refl. }
  congruence.
Qed.

Lemma repeated_keyword_found (bound : list string) (kwargs : dict pyobj)
    (name : string) :
  repeated_keyword bound kwargs = Some name ->
  In name (map fst kwargs) /\ In name bound.
Proof.
  unfold repeated_keyword. intros Hfind.
  apply find_some in Hfind as [Hin Hbound]. split; [assumption|].
  apply existsb_exists in Hbound as [b [Hb Heq]].
  apply String.eqb_eq in Heq. now subst b.
Qed.

Lemma repeated_keyword_free (bound : list string) (kwargs : dict pyobj) :
  repeated_keyword bound kwargs = None ->
  forall k, In k (map fst kwargs) -> ~ In k bound.
Proof.
  intros Hnone k Hin Hbound.
  destruct (repeated_keyword_some bound kwargs k Hin Hbound) as [name Hname].
  congruence.
Qed.

Lemma without_absent_key (name : string) (kwargs : dict pyobj) :
  ~ In name (map fst kwargs) -> without_key name kwargs = kwargs.
Proof.
  unfold without_key.
  induction kwargs as [|[k v] kwargs IH]; simpl; intros Hnot; [reflexivity|].
  destruct (String.eqb_spec k name) as [->|Hne]; simpl; [tauto|].
  now rewrite IH by tauto.
Qed.

Lemma plain_kwargs_hosted (kwargs : dict pyobj) :
  plain_kwargs kwargs ->
  repeated_keyword hosted_call_keywords kwargs = None
  /\ Dict.get "json_output" kwargs = None
  /\ without_key "json_output" kwargs = kwargs
  /\ repeated_keyword create_keywords (("stream", PyBool false) :: kwargs)
     = None.
Proof.
  intros Hplain.
  assert (Hjson : ~ In "json_output" (map fst kwargs))
    by (intros Hin; apply (Hplain _ Hin); simpl; tauto).
  split; [|split; [|split]].
  - apply repeated_keyword_none. intros k Hin Hbound.
    apply (Hplain k Hin). simpl in *. tauto.
  - destruct (Dict.get "json_output" kwargs) eqn:Hget; [|reflexivity].
    now apply get_some_in_keys in Hget.
  - now apply without_absent_key.
  - apply repeated_keyword_none. intros k [<-|Hin] Hbound.
    + simpl in Hbound. intuition discriminate.
    + apply (Hplain k Hin). simpl in *. tauto.
Qed.

(* ================================================================= *)
(** ** The hosted-API backend *)

Section Hosted.

Context `{RT : Runtime}.

(** What [OpenAIChatModel.__init__] does, by the environment it finds. *)
Lemma hosted_init_run (name : string) (timeout : Z) (w : world) :
  OpenAIChatModel_init name timeout w
  = match Dict.get "OPENAI_API_KEY" (environ w) with
    | None => (Raise (ValueError credential_missing), w)
    | Some key =>
        (match openai_OpenAI (environ w) timeout with
         | Ok c => Ok {| openai_model_name := name; client := c |}
         | Raise e => Raise e
         end,
         {| environ := environ w;
            openai_api_key := Some key;
            trace := trace w |})
    end.
Proof.
  unfold OpenAIChatModel_init, bind, getenv, set_openai_api_key, ret, raise.
  destruct (Dict.get "OPENAI_API_KEY" (environ w)) as [key|]; [|reflexivity].
  cbn [environ]. now destruct (openai_OpenAI (environ w) timeout).
Qed.


(** What one call of [OpenAIChatModel.generate] does: unless both
    [messages] and [user_prompt] are [None], or a keyword is repeated at the
    call of [create], it sends one request and returns from the answer. *)
Lemma hosted_generate_run (self : OpenAIChatModel)
    (user_prompt system_prompt : pyobj) (messages : option (list message))
    (temperature top_p : Q) (max_new_tokens : Z) (stop : pyobj)
    (num_return_sequences : Z) (json_output : bool) (kwargs : dict pyobj)
    (w : world) :
  OpenAIChatModel_generate self user_prompt system_prompt messages
    temperature top_p max_new_tokens stop num_return_sequences json_output
    kwargs w
  = match messages, is_none user_prompt with
    | None, true =>
        (Raise (AssertionError
                  "Either give both system_prompt and user_prompt or give messages"),
         w)
    | _, _ =>
        match repeated_keyword create_keywords kwargs with
        | Some name => (Raise (multiple_values "create" name), w)
        | None =>
            let sent :=
              match messages with
              | Some given => given
              | None =>
                  if is_none system_prompt then [user_message user_prompt]
                  else [system_message system_prompt;
                        user_message user_prompt]
              end in
            let req :=
              chat_request_of self sent temperature top_p max_new_tokens stop
                num_return_sequences json_output kwargs in
            (returned num_return_sequences
               (chat_completions_create (client self) req),
             record_event (EvChatCompletion req) w)
        end
    end.
Proof.
  unfold OpenAIChatModel_generate, create, returned, chat_request_of,
    record_event, bind, py_assert, emit, lift, ret, raise, rbind.
  destruct messages as [given|]; destruct (is_none user_prompt); simpl;
    try reflexivity;
    try (destruct (is_none system_prompt); simpl);
    destruct (repeated_keyword create_keywords kwargs); simpl;
    try reflexivity;
    match goal with
    | |- context [chat_completions_create ?c ?r] =>
        destruct (chat_completions_create c r) as [choices|e]; simpl
    end;
    try reflexivity;
    destruct (num_return_sequences =? 1)%Z; reflexivity.
Qed.

(** C10, as the code has it. When [messages] is given,
    [OpenAIChatModel.generate] never looks at [user_prompt] or
    [system_prompt]: the whole run is the same for every value of the two.
    If the extra keyword arguments repeat none of the keywords the adapter
    passes to [create] itself, the one request carries exactly the given
    sequence (and when [messages] is [None] the messages are built from the
    pair, the call being refused without any request if [user_prompt] is
    [None] too); if they repeat one, the call raises [TypeError] and nothing
    is sent. *)
Theorem supplied_messages_sent_unchanged (self : OpenAIChatModel)
    (user_prompt system_prompt : pyobj) (given : list message)
    (temperature top_p : Q) (max_new_tokens : Z) (stop : pyobj)
    (num_return_sequences : Z) (json_output : bool) (kwargs : dict pyobj)
    (w : world) :
  let passed :=
    ["model"; "messages"; "temperature"; "max_tokens"; "top_p"; "n"; "stop";
     "response_format"; "seed"] in
  let req messages :=
    {| req_model := openai_model_name self;
       req_messages := messages;
       req_temperature := temperature;
       req_max_tokens := max_new_tokens;
       req_top_p := top_p;
       req_n := num_return_sequences;
       req_stop := stop;
       req_response_format :=
         if json_output then Some [("type", PyStr "json_object")] else None;
       req_seed := 0;
       req_kwargs := kwargs |} in
  let run user_prompt system_prompt messages :=
    OpenAIChatModel_generate self user_prompt system_prompt messages
      temperature top_p max_new_tokens stop num_return_sequences json_output
      kwargs w in
  (forall user_prompt' system_prompt',
     run user_prompt' system_prompt' (Some given)
     = run user_prompt system_prompt (Some given))
  /\ ((forall k, In k (map fst kwargs) -> ~ In k passed) ->
      run user_prompt system_prompt (Some given)
      = (returned num_return_sequences
           (chat_completions_create (client self) (req given)),
         record_event (EvChatCompletion (req given)) w)
      /\ run user_prompt system_prompt None
         = if is_none user_prompt
           then (Raise (AssertionError
                          "Either give both system_prompt and user_prompt or give messages"),
                 w)
           else
             let user := [("role", PyStr "user"); ("content", user_prompt)] in
             let built :=
               if is_none system_prompt then [user]
               else [[("role", PyStr "system"); ("content", system_prompt)];
                     user] in
             (returned num_return_sequences
                (chat_completions_create (client self) (req built)),
              record_event (EvChatCompletion (req built)) w))
  /\ (forall k,
        In k (map fst kwargs) -> In k passed ->
        exists msg,
          run user_prompt system_prompt (Some given)
          = (Raise (TypeError msg), w)).
Proof.
  cbv zeta. split; [|split].
  - intros up' sp'. rewrite !hosted_generate_run.
    now destruct (is_none user_prompt), (is_none up').
  - intros Hfree.
    pose proof (repeated_keyword_none create_keywords kwargs Hfree) as Hnone.
    split; rewrite hosted_generate_run, ?Hnone.
    + now destruct (is_none user_prompt).
    + now destruct (is_none user_prompt).
  - intros k Hin Hpassed.
    destruct (repeated_keyword_some create_keywords kwargs k Hin Hpassed)
      as [name Hname].
    rewrite hosted_generate_run, Hname.
    destruct (is_none user_prompt); eexists; reflexivity.
Qed.

End Hosted.

(* ================================================================= *)
(** ** The optimized prompt *)

Section OptimizedPrompt.

Context `{RT : Runtime}.

Lemma load_registered_run (model : backend) (model_mapping : dict string)
    (w : world) :
  Dict.mem (model_name model) model_mapping = true ->
  _load_optimized_prompt model model_mapping w
  = (Raise (TypeError "'dict' object is not callable"), w).
Proof.
  intros Hmem. unfold _load_optimized_prompt. rewrite Hmem. reflexivity.
Qed.

Lemma load_unregistered_run (model : backend) (model_mapping : dict string)
    (w : world) :
  Dict.mem (model_name model) model_mapping = false ->
  _load_optimized_prompt model model_mapping w
  = (Ok (PyStr default_prompt),
     record_event
       (EvPrint ("We currently do not have optimized prompt for: "
                   ++ model_name model ++ "."))
       w).
Proof.
  intros Hmem. unfold _load_optimized_prompt. rewrite Hmem. reflexivity.
Qed.

(** C1. For a model identifier that is a key of the registry,
    [_load_optimized_prompt] does not get the artifact path: line 81 calls
    the mapping instead of indexing it, which raises [TypeError] before any
    file is opened. *)
Theorem registered_model_load_raises (model : backend)
    (model_mapping : dict string) (w : world) :
  Dict.mem (model_name model) model_mapping = true ->
  _load_optimized_prompt model model_mapping w
  = (Raise (TypeError "'dict' object is not callable"), w)
  /\ file_opens (snd (_load_optimized_prompt model model_mapping w))
     = file_opens w.
Proof.
  intros Hmem. rewrite load_registered_run by assumption. auto.
Qed.

(** C8. For a model identifier that is not a key of the registry,
    [_load_optimized_prompt] returns the literal "You are a helpful
    assistant"; the only thing it does besides is print one line, so no file
    is opened. *)
Theorem unregistered_model_gets_default (model : backend)
    (model_mapping : dict string) (w : world) :
  Dict.mem (model_name model) model_mapping = false ->
  _load_optimized_prompt model model_mapping w
  = (Ok (PyStr "You are a helpful assistant"),
     record_event
       (EvPrint ("We currently do not have optimized prompt for: "
                   ++ model_name model ++ "."))
       w)
  /\ file_opens (snd (_load_optimized_prompt model model_mapping w))
     = file_opens w.
Proof.
  intros Hmem. rewrite load_unregistered_run by assumption.
  split; [reflexivity|].
  unfold file_opens, record_event. simpl.
  rewrite filter_app. simpl. apply app_nil_r.
Qed.




(** C7. For a model identifier the registry maps to the path of an
    artifact, of whatever shape, [_load_optimized_prompt] gets neither to the
    extraction nor to its fallback: line 81 raises [TypeError] before the
    file is opened, so the load fails instead of returning the nested
    prompt or the whole artifact. *)
Theorem registered_artifact_is_never_extracted (model : backend)
    (model_mapping : dict string) (prompt_path : string) (artifact : pyobj)
    (w : world) :
  Dict.get (model_name model) model_mapping = Some prompt_path ->
  pickle_files prompt_path = Some artifact ->
  _load_optimized_prompt model model_mapping w
  = (Raise (TypeError "'dict' object is not callable"), w)
  /\ fst (_load_optimized_prompt model model_mapping w)
     <> Ok (extract_model_prompt artifact)
  /\ file_opens (snd (_load_optimized_prompt model model_mapping w))
     = file_opens w.
Proof.
  intros Hpath _.
  assert (Hmem : Dict.mem (model_name model) model_mapping = true)
    by (unfold Dict.mem; now rewrite Hpath).
  rewrite load_registered_run by assumption.
  split; [reflexivity|]. split; [discriminate | reflexivity].
Qed.

Lemma load_json_is_dict (file_path : string) (w w' : world) (d : dict string) :
  _load_json file_path w = (Ok d, w') -> NoDup (Dict.keys d).
Proof.
  unfold _load_json, bind, emit, ret, raise.
  destruct (json_files file_path); intros H; inversion H; subst.
  apply of_pairs_NoDup.
Qed.

(** What a successful [AutoModel.__init__] leaves: an index over the example
    set, and the default prompt (for a registered identifier construction
    does not succeed). *)
Lemma init_establishes (name : string) (num_gpus : Z)
    (cuda_visible_devices dtype : string) (gpu_memory_utilization : Q)
    (max_model_len : option Z) (timeout : Z) (use_open_ai : bool)
    (kwargs : dict pyobj) (w w' : world) (self : AutoModel) :
  AutoModel_init name num_gpus cuda_visible_devices dtype
    gpu_memory_utilization max_model_len timeout use_open_ai kwargs w
  = (Ok self, w') ->
  constructed self
  /\ open_ai_model self = use_open_ai
  /\ Dict.mem (model_name (model self)) (model_mapping self) = false
  /\ optimized_prompt self = PyStr default_prompt.
Proof.
  unfold AutoModel_init. intros H.
  apply bind_ok_inv in H as (_ & w1 & _ & H).
  apply bind_ok_inv in H as (mapping & w2 & Hmap & H).
  apply bind_ok_inv in H as (examples & w3 & Hex & H).
  apply bind_ok_inv in H as (encode & w4 & Henc & H).
  apply bind_ok_inv in H as (b & w5 & Hb & H).
  apply bind_ok_inv in H as (prompt & w6 & Hprompt & H).
  inversion H; subst; clear H. unfold constructed, open_ai_model. simpl.
  split; [split; [eapply load_json_is_dict; eassumption | reflexivity]|].
  split.
  { destruct use_open_ai.
    - apply bind_ok_inv in Hb as (m & w7 & _ & Hb). now inversion Hb.
    - apply bind_ok_inv in Hb as (m & w7 & _ & Hb). now inversion Hb. }
  destruct (Dict.mem (model_name b) mapping) eqn:Hmem.
  - rewrite load_registered_run in Hprompt by assumption. discriminate.
  - rewrite load_unregistered_run in Hprompt by assumption.
    inversion Hprompt. auto.
Qed.

End OptimizedPrompt.

(* ================================================================= *)
(** ** [AutoModel.generate] *)

Section Generate.

Context `{RT : Runtime}.

(** C4. With [optimized_icl] set and [num_optimized_icl <= 0],
    [AutoModel.generate] raises the [AssertionError] of line 155 and leaves
    the process state untouched: no backend call is recorded. *)
Theorem generate_rejects_nonpositive_icl (self : AutoModel)
    (user_query : string) (optimized_prompt : bool) (num_optimized_icl : Z)
    (temperature top_p : Q) (max_new_tokens : Z) (stop : pyobj)
    (kwargs : dict pyobj) (w : world) :
  (num_optimized_icl <= 0)%Z ->
  AutoModel_generate self user_query optimized_prompt true num_optimized_icl
    temperature top_p max_new_tokens stop kwargs w
  = (Raise (AssertionError "Number of ICL examples should be > 0"), w)
  /\ backend_calls
       (snd (AutoModel_generate self user_query optimized_prompt true
               num_optimized_icl temperature top_p max_new_tokens stop
               kwargs w))
     = backend_calls w.
Proof.
  intros Hk.
  assert (Hrun :
    AutoModel_generate self user_query optimized_prompt true num_optimized_icl
      temperature top_p max_new_tokens stop kwargs w
    = (Raise (AssertionError "Number of ICL examples should be > 0"), w)).
  { unfold AutoModel_generate, bind, py_assert, raise.
    destruct (Z.ltb_spec 0 num_optimized_icl); [lia | reflexivity]. }
  rewrite Hrun. auto.
Qed.

(** The entry check and the prompt assembly, when they go through. *)
Lemma generate_after_assembly (self : AutoModel) (user_query : string)
    (optimized_prompt optimized_icl : bool) (num_optimized_icl : Z)
    (temperature top_p : Q) (max_new_tokens : Z) (stop : pyobj)
    (kwargs : dict pyobj) (w : world) (system_prompt : pyobj) :
  (optimized_icl = true -> (0 < num_optimized_icl)%Z) ->
  _prepare_system_prompt self optimized_prompt optimized_icl
    num_optimized_icl user_query = Ok system_prompt ->
  AutoModel_generate self user_query optimized_prompt optimized_icl
    num_optimized_icl temperature top_p max_new_tokens stop kwargs w
  = match model self with
    | Hosted m =>
        match repeated_keyword hosted_call_keywords kwargs with
        | Some name => (Raise (multiple_values "generate" name), w)
        | None =>
            OpenAIChatModel_generate m (PyStr (user_turn user_query))
              system_prompt None temperature top_p max_new_tokens stop 1
              match Dict.get "json_output" kwargs with
              | Some flag => py_truth flag
              | None => false
              end
              (("stream", PyBool false) :: without_key "json_output" kwargs)
              w
        end
    | SelfHosted m =>
        (chat_template <-
           lift (tokenizer_getattr (tokenizer m) "chat_tempalte") ;;
         prompt <-
           (if negb (is_none chat_template)
            then lift (_prepare_chat_llm_prompt (tokenizer m)
                         system_prompt (PyStr (user_turn user_query)))
            else lift (s <-? py_add_str system_prompt (nl ++ nl) ;;
                       py_add_str s (user_turn user_query))) ;;
         engine_generate m
           {| eng_prompt := prompt;
              eng_temperature := temperature;
              eng_top_p := top_p;
              eng_max_new_tokens := max_new_tokens;
              eng_stop := stop;
              eng_kwargs := kwargs |}) w
    end.
Proof.
  intros Hk Hprompt. unfold AutoModel_generate.
  assert (Hcheck :
    (if optimized_icl
     then py_assert (0 <? num_optimized_icl)%Z
            "Number of ICL examples should be > 0"
     else ret tt) w = (Ok tt, w)).
  { destruct optimized_icl; [|reflexivity].
    unfold py_assert. destruct (Z.ltb_spec 0 num_optimized_icl);
      [reflexivity | specialize (Hk eq_refl); lia]. }
  rewrite (bind_ok _ _ _ _ _ Hcheck).
  rewrite Hprompt.
  erewrite bind_ok by reflexivity.
  cbv beta zeta. destruct (model self); [|reflexivity].
  now destruct (repeated_keyword hosted_call_keywords kwargs).
Qed.

(** The hosted route, when the entry check and the assembly go through and
    the keyword arguments are plain: one request with the system and the user
    message, and the backend's answer. *)
Lemma hosted_route_run (self : AutoModel) (m : OpenAIChatModel)
    (user_query : string) (optimized_prompt optimized_icl : bool)
    (num_optimized_icl : Z) (temperature top_p : Q) (max_new_tokens : Z)
    (stop : pyobj) (kwargs : dict pyobj) (w : world) (system_prompt : pyobj) :
  model self = Hosted m ->
  (optimized_icl = true -> (0 < num_optimized_icl)%Z) ->
  _prepare_system_prompt self optimized_prompt optimized_icl
    num_optimized_icl user_query = Ok system_prompt ->
  plain_kwargs kwargs ->
  AutoModel_generate self user_query optimized_prompt optimized_icl
    num_optimized_icl temperature top_p max_new_tokens stop kwargs w
  = let user_prompt := PyStr (user_turn user_query) in
    let req :=
      chat_request_of m
        (if is_none system_prompt then [user_message user_prompt]
         else [system_message system_prompt; user_message user_prompt])
        temperature top_p max_new_tokens stop 1 false
        (("stream", PyBool false) :: kwargs) in
    (returned 1 (chat_completions_create (client m) req),
     record_event (EvChatCompletion req) w).
Proof.
  intros Hmodel Hk Hprompt Hplain.
  destruct (plain_kwargs_hosted kwargs Hplain)
    as (Hcall & Hjson & Hrest & Hcreate).
  rewrite (generate_after_assembly _ _ _ _ _ _ _ _ _ _ _ _ Hk Hprompt).
  rewrite Hmodel, Hcall, Hjson, Hrest, hosted_generate_run, Hcreate.
  reflexivity.
Qed.

(** A keyword repeated at the call of lines 165 to 168 stops the hosted
    route before the adapter runs. *)
Lemma hosted_route_repeated (self : AutoModel) (m : OpenAIChatModel)
    (user_query : string) (optimized_prompt optimized_icl : bool)
    (num_optimized_icl : Z) (temperature top_p : Q) (max_new_tokens : Z)
    (stop : pyobj) (kwargs : dict pyobj) (w : world) (system_prompt : pyobj)
    (name : string) :
  model self = Hosted m ->
  (optimized_icl = true -> (0 < num_optimized_icl)%Z) ->
  _prepare_system_prompt self optimized_prompt optimized_icl
    num_optimized_icl user_query = Ok system_prompt ->
  repeated_keyword hosted_call_keywords kwargs = Some name ->
  AutoModel_generate self user_query optimized_prompt optimized_icl
    num_optimized_icl temperature top_p max_new_tokens stop kwargs w
  = (Raise (multiple_values "generate" name), w).
Proof.
  intros Hmodel Hk Hprompt Hname.
  rewrite (generate_after_assembly _ _ _ _ _ _ _ _ _ _ _ _ Hk Hprompt).
  now rewrite Hmodel, Hname.
Qed.

Lemma stored_answers (self : AutoModel) (top : list (Q * string)) :
  (forall s q, In (s, q) top -> In q (Dict.keys (icl_examples self))) ->
  Forall2 (fun sim_query answer =>
             Dict.get (snd sim_query) (icl_examples self) = Some answer)
    top (map (fun sim_query => answer_of self (snd sim_query)) top).
Proof.
  induction top as [|[s q] top IH]; intros Hkeys; simpl; constructor.
  - simpl. unfold answer_of.
    destruct (in_keys_get_some q (icl_examples self)) as [a Ha];
      [eapply Hkeys; left; reflexivity|].
    now rewrite Ha.
  - apply IH. intros s' q' Hin. eapply Hkeys. right. eassumption.
Qed.

Lemma blocks_spelled_out (self : AutoModel) (top : list (Q * string)) :
  icl_blocks self top
  = fold_right String.append ""
      (map (fun qa => ("

#Query:
" ++ fst qa ++ "

#Answer:
" ++ snd qa)%string)
         (combine (map snd top)
            (map (fun sim_query => answer_of self (snd sim_query)) top))).
Proof.
  unfold icl_blocks.
  induction top as [|[s q] top IH]; [reflexivity|].
  simpl. now rewrite IH.
Qed.

(** C6. With [optimized_icl] set and a base prompt that is a string, the
    system prompt [_prepare_system_prompt] assembles is the base prompt
    followed by one block per retrieved example, in the retriever's order,
    each block being the two line feeds, [#Query:], a line feed, the example
    query, two line feeds, [#Answer:], a line feed and the answer the example
    set stores for that query; and a [generate] call that passes the entry
    check with plain keyword arguments sends exactly this string as the
    content of the system message on the hosted route. *)
Theorem system_prompt_is_base_then_blocks (self : AutoModel)
    (use_optimized : bool) (num_optimized_icl : Z) (user_query base : string) :
  constructed self ->
  (if use_optimized then optimized_prompt self
   else PyStr "You are a helpful assistant") = PyStr base ->
  exists top answers,
    _get_top_k_icl_examples self user_query num_optimized_icl = Ok top
    /\ Forall2 (fun sim_query answer =>
                  Dict.get (snd sim_query) (icl_examples self) = Some answer)
         top answers
    /\ let blocks :=
         map (fun qa => ("

#Query:
" ++ fst qa ++ "

#Answer:
" ++ snd qa)%string) (combine (map snd top) answers) in
       let assembled := (base ++ fold_right String.append "" blocks)%string in
       _prepare_system_prompt self use_optimized true num_optimized_icl
         user_query
       = Ok (PyStr assembled)
       /\ forall m temperature top_p max_new_tokens stop kwargs w,
            model self = Hosted m ->
            (0 < num_optimized_icl)%Z ->
            plain_kwargs kwargs ->
            let req :=
              {| req_model := openai_model_name m;
                 req_messages :=
                   [[("role", PyStr "system");
                     ("content", PyStr assembled)];
                    [("role", PyStr "user");
                     ("content", PyStr ("# Query:
" ++ user_query ++ "

# Answer:
<START>")%string)]];
                 req_temperature := temperature;
                 req_max_tokens := max_new_tokens;
                 req_top_p := top_p;
                 req_n := 1;
                 req_stop := stop;
                 req_response_format := None;
                 req_seed := 0;
                 req_kwargs := ("stream", PyBool false) :: kwargs |} in
            AutoModel_generate self user_query use_optimized true
              num_optimized_icl temperature top_p max_new_tokens stop kwargs w
            = (returned 1 (chat_completions_create (client m) req),
               record_event (EvChatCompletion req) w).
Proof.
  intros Hc Hbase.
  pose proof (top_k_of_constructed self user_query num_optimized_icl Hc) as Htop.
  pose proof (top_k_entries self user_query num_optimized_icl _ Hc Htop) as Hkeys.
  eexists. eexists. split; [exact Htop|].
  split; [exact (stored_answers self _ Hkeys)|].
  cbv zeta.
  assert (Hassembled :
    _prepare_system_prompt self use_optimized true num_optimized_icl
      user_query
    = Ok (PyStr (base ++ icl_blocks self
                   (py_slice_to num_optimized_icl
                      (sort_reverse_by_fst
                         (all_similarities self user_query)))))).
  { unfold _prepare_system_prompt, self_optimized_prompt, default_prompt.
    rewrite Htop. simpl. rewrite Hbase.
    now apply append_blocks. }
  rewrite blocks_spelled_out in Hassembled.
  split; [exact Hassembled|].
  intros m temperature top_p max_new_tokens stop kwargs w Hmodel Hk Hplain.
  rewrite (hosted_route_run self m user_query use_optimized true
             num_optimized_icl temperature top_p max_new_tokens stop kwargs
             w _ Hmodel (fun _ => Hk) Hassembled Hplain).
  reflexivity.
Qed.

(** C2. On the self-hosted route [AutoModel.generate] reads the tokenizer
    attribute [chat_tempalte] (line 170). A tokenizer without an attribute of
    that spelling, whether or not it has a [chat_template], makes the call
    raise [AttributeError] once the system prompt is assembled: no
    conversation is built, no concatenation is sent, the engine is not
    called. *)
Theorem selfhosted_generate_reads_misspelt_attribute (self : AutoModel)
    (m : VLLMModel) (user_query : string)
    (optimized_prompt optimized_icl : bool) (num_optimized_icl : Z)
    (temperature top_p : Q) (max_new_tokens : Z) (stop : pyobj)
    (kwargs : dict pyobj) (w : world) (system_prompt : pyobj) :
  model self = SelfHosted m ->
  Dict.get "chat_tempalte" (tok_attrs (tokenizer m)) = None ->
  (optimized_icl = true -> (0 < num_optimized_icl)%Z) ->
  _prepare_system_prompt self optimized_prompt optimized_icl
    num_optimized_icl user_query = Ok system_prompt ->
  AutoModel_generate self user_query optimized_prompt optimized_icl
    num_optimized_icl temperature top_p max_new_tokens stop kwargs w
  = (Raise (AttributeError
              ("'" ++ tok_class (tokenizer m)
                   ++ "' object has no attribute 'chat_tempalte'")),
     w).
Proof.
  intros Hmodel Hattr Hk Hprompt.
  rewrite (generate_after_assembly _ _ _ _ _ _ _ _ _ _ _ _ Hk Hprompt).
  rewrite Hmodel.
  unfold bind, lift, tokenizer_getattr, py_getattr. now rewrite Hattr.
Qed.

(** What the self-hosted route would send if the tokenizer did carry an
    attribute spelt [chat_tempalte]: the templated conversation when it is
    not [None], the concatenation when it is. *)
Lemma selfhosted_generate_dispatch (self : AutoModel) (m : VLLMModel)
    (user_query : string) (optimized_prompt optimized_icl : bool)
    (num_optimized_icl : Z) (temperature top_p : Q) (max_new_tokens : Z)
    (stop : pyobj) (kwargs : dict pyobj) (w : world)
    (system_prompt : string) (attr : pyobj) :
  model self = SelfHosted m ->
  Dict.get "chat_tempalte" (tok_attrs (tokenizer m)) = Some attr ->
  (optimized_icl = true -> (0 < num_optimized_icl)%Z) ->
  _prepare_system_prompt self optimized_prompt optimized_icl
    num_optimized_icl user_query = Ok (PyStr system_prompt) ->
  AutoModel_generate self user_query optimized_prompt optimized_icl
    num_optimized_icl temperature top_p max_new_tokens stop kwargs w
  = (prompt <-
       lift (if is_none attr
             then Ok (PyStr (system_prompt ++ nl ++ nl ++ user_turn user_query))
             else apply_chat_template (tokenizer m)
                    [system_message (PyStr system_prompt);
                     user_message (PyStr (user_turn user_query))]
                    false true) ;;
     engine_generate m
       {| eng_prompt := prompt;
          eng_temperature := temperature;
          eng_top_p := top_p;
          eng_max_new_tokens := max_new_tokens;
          eng_stop := stop;
          eng_kwargs := kwargs |}) w.
Proof.
  intros Hmodel Hattr Hk Hprompt.
  rewrite (generate_after_assembly _ _ _ _ _ _ _ _ _ _ _ _ Hk Hprompt).
  rewrite Hmodel.
  unfold bind at 1. unfold lift at 1.
  unfold tokenizer_getattr, py_getattr. rewrite Hattr.
  unfold _prepare_chat_llm_prompt.
  destruct (is_none attr); simpl; [|reflexivity].
  now rewrite append_assoc.
Qed.

End Generate.

(* ================================================================= *)
(** ** Sampling parameters *)

Section Sampling.

Context `{RT : Runtime}.

(** Every path of [AutoModel.generate], with its result and the state it
    leaves. *)
Lemma generate_run (self : AutoModel) (user_query : string)
    (optimized_prompt optimized_icl : bool) (num_optimized_icl : Z)
    (temperature top_p : Q) (max_new_tokens : Z) (stop : pyobj)
    (kwargs : dict pyobj) (w : world) :
  AutoModel_generate self user_query optimized_prompt optimized_icl
    num_optimized_icl temperature top_p max_new_tokens stop kwargs w
  = if optimized_icl && negb (0 <? num_optimized_icl)%Z
    then (Raise (AssertionError "Number of ICL examples should be > 0"), w)
    else
      match _prepare_system_prompt self optimized_prompt optimized_icl
              num_optimized_icl user_query with
      | Raise e => (Raise e, w)
      | Ok system_prompt =>
          match model self with
          | Hosted m =>
              match repeated_keyword hosted_call_keywords kwargs with
              | Some name => (Raise (multiple_values "generate" name), w)
              | None =>
                  OpenAIChatModel_generate m (PyStr (user_turn user_query))
                    system_prompt None temperature top_p max_new_tokens stop
                    1
                    match Dict.get "json_output" kwargs with
                    | Some flag => py_truth flag
                    | None => false
                    end
                    (("stream", PyBool false)
                       :: without_key "json_output" kwargs)
                    w
              end
          | SelfHosted m =>
              match tokenizer_getattr (tokenizer m) "chat_tempalte" with
              | Raise e => (Raise e, w)
              | Ok chat_template =>
                  match
                    (if negb (is_none chat_template)
                     then _prepare_chat_llm_prompt (tokenizer m)
                            system_prompt (PyStr (user_turn user_query))
                     else s <-? py_add_str system_prompt (nl ++ nl) ;;
                          py_add_str s (user_turn user_query))
                  with
                  | Raise e => (Raise e, w)
                  | Ok prompt =>
                      let req :=
                        {| eng_prompt := prompt;
                           eng_temperature := temperature;
                           eng_top_p := top_p;
                           eng_max_new_tokens := max_new_tokens;
                           eng_stop := stop;
                           eng_kwargs := kwargs |} in
                      (VLLMModel_generate m req,
                       record_event (EvEngineGenerate req) w)
                  end
              end
          end
      end.
Proof.
  unfold AutoModel_generate.
  destruct optimized_icl; simpl andb.
  - unfold bind at 1, py_assert.
    destruct (0 <? num_optimized_icl)%Z; simpl negb; cbv iota;
      [|reflexivity].
    unfold ret at 1. unfold bind at 1, lift at 1.
    destruct (_prepare_system_prompt self optimized_prompt true
                num_optimized_icl user_query) as [system_prompt|e];
      [|reflexivity].
    cbv zeta. destruct (model self) as [m|m].
    + now destruct (repeated_keyword hosted_call_keywords kwargs).
    + unfold bind at 1, lift at 1.
      destruct (tokenizer_getattr (tokenizer m) "chat_tempalte")
        as [chat_template|e]; [|reflexivity].
      destruct (negb (is_none chat_template)); unfold bind at 1, lift at 1.
      * now destruct (_prepare_chat_llm_prompt (tokenizer m) system_prompt
                        (PyStr (user_turn user_query))).
      * now destruct (s <-? py_add_str system_prompt (nl ++ nl) ;;
                      py_add_str s (user_turn user_query)).
  - unfold bind at 1. unfold ret at 1. unfold bind at 1, lift at 1.
    destruct (_prepare_system_prompt self optimized_prompt false
                num_optimized_icl user_query) as [system_prompt|e];
      [|reflexivity].
    cbv zeta. destruct (model self) as [m|m].
    + now destruct (repeated_keyword hosted_call_keywords kwargs).
    + unfold bind at 1, lift at 1.
      destruct (tokenizer_getattr (tokenizer m) "chat_tempalte")
        as [chat_template|e]; [|reflexivity].
      destruct (negb (is_none chat_template)); unfold bind at 1, lift at 1.
      * now destruct (_prepare_chat_llm_prompt (tokenizer m) system_prompt
                        (PyStr (user_turn user_query))).
      * now destruct (s <-? py_add_str system_prompt (nl ++ nl) ;;
                      py_add_str s (user_turn user_query)).
Qed.

Ltac close_trace :=
  first
    [ exists []; split; [symmetry; apply app_nil_r | constructor]
    | eexists; split;
      [reflexivity | repeat constructor; simpl; auto] ].

(** Whatever the route and the outcome, a backend call that
    [AutoModel.generate] records carries the caller's [temperature] and
    [top_p]. *)
Lemma generate_calls_carry_sampling (self : AutoModel) (user_query : string)
    (optimized_prompt optimized_icl : bool) (num_optimized_icl : Z)
    (temperature top_p : Q) (max_new_tokens : Z) (stop : pyobj)
    (kwargs : dict pyobj) (w : world) :
  exists calls,
    trace (snd (AutoModel_generate self user_query optimized_prompt
                  optimized_icl num_optimized_icl temperature top_p
                  max_new_tokens stop kwargs w))
    = trace w ++ calls
    /\ Forall (carries temperature top_p) calls.
Proof.
  rewrite generate_run.
  destruct (optimized_icl && negb (0 <? num_optimized_icl)%Z);
    [close_trace|].
  destruct (_prepare_system_prompt self optimized_prompt optimized_icl
              num_optimized_icl user_query) as [system_prompt|e];
    [|close_trace].
  destruct (model self) as [m|m].
  - destruct (repeated_keyword hosted_call_keywords kwargs); [close_trace|].
    rewrite hosted_generate_run. simpl.
    destruct (repeated_keyword create_keywords _); simpl; close_trace.
  - destruct (tokenizer_getattr (tokenizer m) "chat_tempalte")
      as [chat_template|e]; [|close_trace].
    destruct (if negb (is_none chat_template) then _ else _)
      as [prompt|e]; simpl; close_trace.
Qed.

(** With backends that do not look at the sampling parameters, the result
    of [AutoModel.generate] does not depend on them either. *)
Lemma generate_result_ignores_sampling (self : AutoModel)
    (user_query : string) (optimized_prompt optimized_icl : bool)
    (num_optimized_icl : Z) (temperature top_p temperature' top_p' : Q)
    (max_new_tokens : Z) (stop : pyobj) (kwargs : dict pyobj) (w : world) :
  sampling_blind ->
  fst (AutoModel_generate self user_query optimized_prompt optimized_icl
         num_optimized_icl temperature top_p max_new_tokens stop kwargs w)
  = fst (AutoModel_generate self user_query optimized_prompt optimized_icl
           num_optimized_icl temperature' top_p' max_new_tokens stop kwargs w).
Proof.
  intros [Hchat Hengine]. rewrite !generate_run.
  destruct (optimized_icl && negb (0 <? num_optimized_icl)%Z);
    [reflexivity|].
  destruct (_prepare_system_prompt self optimized_prompt optimized_icl
              num_optimized_icl user_query) as [system_prompt|e];
    [|reflexivity].
  destruct (model self) as [m|m].
  - destruct (repeated_keyword hosted_call_keywords kwargs); [reflexivity|].
    rewrite !hosted_generate_run. simpl.
    destruct (repeated_keyword create_keywords _); [reflexivity|].
    simpl.
    match goal with
    | |- returned _ (chat_completions_create _ ?r1)
         = returned _ (chat_completions_create _ ?r2) =>
        change r1 with (chat_resample r2 temperature top_p)
    end.
    now rewrite Hchat.
  - destruct (tokenizer_getattr (tokenizer m) "chat_tempalte")
      as [chat_template|e]; [|reflexivity].
    destruct (if negb (is_none chat_template) then _ else _)
      as [prompt|e]; [|reflexivity].
    simpl.
    match goal with
    | |- VLLMModel_generate _ ?r1 = VLLMModel_generate _ ?r2 =>
        change r1 with (engine_resample r2 temperature top_p)
    end.
    now rewrite Hengine.
Qed.

(** C3, as the code has it. Neither [AutoModel.generate] nor
    [OpenAIChatModel.generate] looks at [temperature] or [top_p]: on either
    route every backend call recorded for a request carries the caller's two
    values unchanged, and with backends whose answer does not depend on the
    two values the result of [generate] is the same for every temperature
    and every [top_p], in range or out of range. *)
Theorem sampling_parameters_forwarded_unchecked (self : AutoModel)
    (user_query : string) (optimized_prompt optimized_icl : bool)
    (num_optimized_icl : Z) (temperature top_p : Q) (max_new_tokens : Z)
    (stop : pyobj) (kwargs : dict pyobj) (w : world) :
  (exists calls,
     trace (snd (AutoModel_generate self user_query optimized_prompt
                   optimized_icl num_optimized_icl temperature top_p
                   max_new_tokens stop kwargs w))
     = trace w ++ calls
     /\ Forall (carries temperature top_p) calls)
  /\ (sampling_blind ->
      forall temperature' top_p',
        fst (AutoModel_generate self user_query optimized_prompt
               optimized_icl num_optimized_icl temperature top_p
               max_new_tokens stop kwargs w)
        = fst (AutoModel_generate self user_query optimized_prompt
                 optimized_icl num_optimized_icl temperature' top_p'
                 max_new_tokens stop kwargs w)).
Proof.
  split; [apply generate_calls_carry_sampling|].
  intros Hblind temperature' top_p'.
  now apply generate_result_ignores_sampling.
Qed.

End Sampling.

(* ================================================================= *)
(** ** The theorems on the concrete installation *)

Section Concrete.

Import Fixtures.

#[local] Existing Instance Fixtures.runtime.

Lemma hosted_fixture_constructed :
  constructed (auto_model (Hosted hosted_model)).
Proof.
  split; [|reflexivity].
  repeat constructor; simpl; intuition discriminate.
Defined.

(** A registered identifier: the loader raises. *)
Lemma registered_model_load_raises_witness :
  Dict.mem (model_name (Hosted hosted_model))
    (model_mapping (auto_model (Hosted hosted_model))) = true
  /\ _load_optimized_prompt (Hosted hosted_model)
       (model_mapping (auto_model (Hosted hosted_model))) world0
     = (Raise (TypeError "'dict' object is not callable"), world0).
Proof.
  split; [reflexivity|].
  apply (registered_model_load_raises (Hosted hosted_model)
           (model_mapping (auto_model (Hosted hosted_model))) world0).
  reflexivity.
Defined.

(** Construction for a registered identifier stops at the same place, with
    both JSON files read and the artifact untouched. *)
Lemma registered_model_init_raises :
  AutoModel_init "gpt-3.5-turbo" 1 "0" "bfloat16" (98 # 100) None 600 true []
    world0
  = (Raise (TypeError "'dict' object is not callable"),
     {| environ := [("OPENAI_API_KEY", "sk-test");
                    ("CUDA_VISIBLE_DEVICES", "0")];
        openai_api_key := Some "sk-test";
        trace := [EvOpen "./data/model_mapping.json" "r";
                  EvOpen "./data/ICL_examples.json" "r"] |}).
Proof. reflexivity. Qed.

(** A tokenizer with a chat template, and one without: both calls raise. *)
Lemma selfhosted_generate_reads_misspelt_attribute_witness :
  Dict.get "chat_template" (tok_attrs templating_tokenizer)
  = Some (PyStr "{% for m in messages %}...")
  /\ Dict.get "chat_tempalte" (tok_attrs templating_tokenizer) = None
  /\ Dict.get "chat_template" (tok_attrs plain_tokenizer) = Some PyNone
  /\ Dict.get "chat_tempalte" (tok_attrs plain_tokenizer) = None
  /\ AutoModel_generate
    (auto_model (SelfHosted (engine_model templating_tokenizer)))
    "Hi" true true 1 (7 # 10) (95 # 100) 512 PyNone [] world0
  = (Raise (AttributeError
              "'LlamaTokenizerFast' object has no attribute 'chat_tempalte'"),
     world0)
  /\ AutoModel_generate
       (auto_model (SelfHosted (engine_model plain_tokenizer)))
       "Hi" true false 3 (7 # 10) (95 # 100) 512 PyNone [] world0
     = (Raise (AttributeError
                 "'GPT2TokenizerFast' object has no attribute 'chat_tempalte'"),
        world0).
Proof.
  do 4 (split; [reflexivity|]).
  split.
  - eapply (selfhosted_generate_reads_misspelt_attribute
              (auto_model (SelfHosted (engine_model templating_tokenizer)))
              (engine_model templating_tokenizer));
      [reflexivity | reflexivity | intros _; lia | vm_compute; reflexivity].
  - eapply (selfhosted_generate_reads_misspelt_attribute
              (auto_model (SelfHosted (engine_model plain_tokenizer)))
              (engine_model plain_tokenizer));
      [reflexivity | reflexivity | discriminate | vm_compute; reflexivity].
Defined.

(** C3, as stated, fails: a request with [temperature = -1] and [top_p = 2]
    is sent to a backend that accepts it, and its answer is returned, by the
    hosted-API adapter and by the orchestrator alike. *)
Lemma out_of_range_sampling_accepted :
  (-1 < 0)%Q
  /\ ~ (0 < 2 /\ 2 <= 1)%Q
  /\ OpenAIChatModel_generate hosted_model (PyStr "Hi") PyNone None
       (-1) 2 512 PyNone 1 false [] world0
     = (Ok (PyStr "ok"),
        record_event
          (EvChatCompletion
             (chat_request_of hosted_model [user_message (PyStr "Hi")]
                (-1) 2 512 PyNone 1 false []))
          world0)
  /\ fst (AutoModel_generate (auto_model (Hosted hosted_model)) "Hi"
            true true 2 (-1) 2 512 PyNone [] world0)
     = Ok (PyStr "ok").
Proof.
  split; [reflexivity|].
  split; [intros [_ H]; now apply H|].
  split; reflexivity.
Qed.

Lemma fixture_backends_blind : @sampling_blind runtime.
Proof. split; reflexivity. Defined.

Lemma sampling_parameters_forwarded_unchecked_witness :
  @sampling_blind runtime
  /\ (exists calls,
        trace (snd (AutoModel_generate (auto_model (Hosted hosted_model))
                      "Hi" true true 2 (-1) 2 512 PyNone [] world0))
        = trace world0 ++ calls
        /\ Forall (carries (-1) 2) calls)
  /\ fst (AutoModel_generate (auto_model (Hosted hosted_model)) "Hi"
            true true 2 (-1) 2 512 PyNone [] world0)
     = fst (AutoModel_generate (auto_model (Hosted hosted_model)) "Hi"
              true true 2 (7 # 10) (95 # 100) 512 PyNone [] world0).
Proof.
  split; [exact fixture_backends_blind|].
  destruct (sampling_parameters_forwarded_unchecked
              (auto_model (Hosted hosted_model)) "Hi" true true 2 (-1) 2 512
              PyNone [] world0) as [Hcalls Hsame].
  split; [exact Hcalls|].
  exact (Hsame fixture_backends_blind (7 # 10) (95 # 100)).
Defined.

Lemma generate_rejects_nonpositive_icl_witness :
  (0 <= 0)%Z
  /\ AutoModel_generate (auto_model (Hosted hosted_model)) "Hi"
       true true 0 (7 # 10) (95 # 100) 512 PyNone [] world0
     = (Raise (AssertionError "Number of ICL examples should be > 0"), world0).
Proof.
  split; [lia|].
  apply (generate_rejects_nonpositive_icl
           (auto_model (Hosted hosted_model)) "Hi" true 0 (7 # 10) (95 # 100)
           512 PyNone [] world0).
  lia.
Defined.

Lemma top_k_length_and_order_witness :
  constructed (auto_model (Hosted hosted_model))
  /\ (1 <= 2)%Z
  /\ exists top rest,
       _get_top_k_icl_examples (auto_model (Hosted hosted_model)) "Hi there" 2
       = Ok top
       /\ Z.of_nat (List.length top) = 2%Z
       /\ non_increasing top
       /\ non_increasing (top ++ rest)
       /\ Permutation (top ++ rest)
            (all_similarities (auto_model (Hosted hosted_model)) "Hi there").
Proof.
  split; [exact hosted_fixture_constructed|].
  split; [lia|].
  exact (top_k_length_and_order (auto_model (Hosted hosted_model)) "Hi there" 2
           hosted_fixture_constructed ltac:(lia)).
Defined.

(** More examples asked for than stored: all three come back. *)
Example top_k_truncates :
  _get_top_k_icl_examples (auto_model (Hosted hosted_model)) "Hi there" 5
  = Ok [((113 # 1)%Q, "Name a colour."); ((97 # 1)%Q, "What is 2+2?");
        ((17 # 1)%Q, "Hi")].
Proof. reflexivity. Qed.

Lemma system_prompt_is_base_then_blocks_witness :
  constructed (auto_model (Hosted hosted_model))
  /\ _get_top_k_icl_examples (auto_model (Hosted hosted_model)) "Hi" 2
     = Ok [((29 # 1)%Q, "Name a colour."); ((25 # 1)%Q, "What is 2+2?")]
  /\ _prepare_system_prompt (auto_model (Hosted hosted_model))
       true true 2 "Hi"
     = Ok (PyStr
"Be precise.

#Query:
Name a colour.

#Answer:
Blue

#Query:
What is 2+2?

#Answer:
4").
Proof.
  split; [exact hosted_fixture_constructed|].
  destruct (system_prompt_is_base_then_blocks
              (auto_model (Hosted hosted_model)) true 2 "Hi" "Be precise."
              hosted_fixture_constructed eq_refl)
    as (top & answers & Htop & Hanswers & Hassembled & _).
  assert (Hranked :
    _get_top_k_icl_examples (auto_model (Hosted hosted_model)) "Hi" 2
    = Ok [((29 # 1)%Q, "Name a colour."); ((25 # 1)%Q, "What is 2+2?")])
    by reflexivity.
  split; [exact Hranked|].
  rewrite Hranked in Htop. inversion Htop; subst top; clear Htop.
  inversion Hanswers as [|? a1 ? rest1 H1 Hrest1]; subst.
  inversion Hrest1 as [|? a2 ? rest2 H2 Hrest2]; subst.
  inversion Hrest2; subst.
  inversion H1; subst a1. inversion H2; subst a2.
  exact Hassembled.
Defined.

(** The hosted request of a call with one plain keyword argument. *)
Example hosted_request_two_blocks :
  trace (snd (AutoModel_generate (auto_model (Hosted hosted_model)) "Hi"
                true true 2 (7 # 10) (95 # 100) 512 PyNone
                [("logprobs", PyBool true)] world0))
  = [EvChatCompletion
       {| req_model := "gpt-3.5-turbo";
          req_messages :=
            [[("role", PyStr "system");
              ("content", PyStr
"Be precise.

#Query:
Name a colour.

#Answer:
Blue

#Query:
What is 2+2?

#Answer:
4")];
             [("role", PyStr "user");
              ("content", PyStr
"# Query:
Hi

# Answer:
<START>")]];
          req_temperature := 7 # 10;
          req_max_tokens := 512;
          req_top_p := 95 # 100;
          req_n := 1;
          req_stop := PyNone;
          req_response_format := None;
          req_seed := 0;
          req_kwargs := [("stream", PyBool false);
                         ("logprobs", PyBool true)] |}].
Proof. reflexivity. Qed.


Lemma unregistered_model_gets_default_witness :
  Dict.mem "gpt-4" (model_mapping (auto_model (Hosted hosted_model))) = false
  /\ fst (_load_optimized_prompt
            (Hosted {| openai_model_name := "gpt-4";
                       client := client hosted_model |})
            (model_mapping (auto_model (Hosted hosted_model))) world0)
     = Ok (PyStr "You are a helpful assistant").
Proof.
  split; [reflexivity|].
  destruct (unregistered_model_gets_default
              (Hosted {| openai_model_name := "gpt-4";
                         client := client hosted_model |})
              (model_mapping (auto_model (Hosted hosted_model))) world0
              eq_refl) as [Hrun _].
  rewrite Hrun. reflexivity.
Defined.

(** Construction for an unregistered identifier: the default prompt, and the
    two JSON files are the only files opened. *)
Example unregistered_model_init :
  let out :=
    AutoModel_init "gpt-4" 1 "0" "bfloat16" (98 # 100) None 600 true []
      world0 in
  match fst out with
  | Ok self => optimized_prompt self = PyStr "You are a helpful assistant"
  | Raise _ => False
  end
  /\ file_opens (snd out)
     = [EvOpen "./data/model_mapping.json" "r";
        EvOpen "./data/ICL_examples.json" "r"].
Proof. split; reflexivity. Qed.



(** C10, as stated, fails: messages are given, and with them a [seed]; the
    call of [create] then names [seed] twice, and nothing is sent. *)
Lemma repeated_keyword_sends_nothing :
  exists msg,
    OpenAIChatModel_generate hosted_model PyNone PyNone
      (Some [[("role", PyStr "user"); ("content", PyStr "Hi")]])
      0 1 512 PyNone 1 false [("seed", PyInt 42)] world0
    = (Raise (TypeError msg), world0).
Proof. eexists. reflexivity. Qed.

Lemma supplied_messages_sent_unchanged_witness :
  trace (snd (OpenAIChatModel_generate hosted_model (PyStr "ignored")
                (PyStr "ignored too")
                (Some [[("role", PyStr "user"); ("content", PyStr "Hi")]])
                0 1 512 PyNone 1 false [("logprobs", PyBool true)] world0))
  = [EvChatCompletion
       {| req_model := "gpt-3.5-turbo";
          req_messages := [[("role", PyStr "user"); ("content", PyStr "Hi")]];
          req_temperature := 0;
          req_max_tokens := 512;
          req_top_p := 1;
          req_n := 1;
          req_stop := PyNone;
          req_response_format := None;
          req_seed := 0;
          req_kwargs := [("logprobs", PyBool true)] |}]
  /\ exists msg,
       OpenAIChatModel_generate hosted_model (PyStr "ignored")
         (PyStr "ignored too")
         (Some [[("role", PyStr "user"); ("content", PyStr "Hi")]])
         0 1 512 PyNone 1 false [("seed", PyInt 42)] world0
       = (Raise (TypeError msg), world0).
Proof.
  split.
  - pose proof (supplied_messages_sent_unchanged (RT := runtime) hosted_model
                  (PyStr "ignored") (PyStr "ignored too")
                  [[("role", PyStr "user"); ("content", PyStr "Hi")]]
                  0 1 512 PyNone 1 false [("logprobs", PyBool true)] world0)
      as Hclaim.
    cbv beta zeta in Hclaim. destruct Hclaim as (_ & Hsent & _).
    assert (Hfree :
      forall k, In k (map fst [("logprobs", PyBool true)]) ->
                ~ In k ["model"; "messages"; "temperature"; "max_tokens";
                        "top_p"; "n"; "stop"; "response_format"; "seed"])
      by (intros k [<-|[]]; simpl; intuition discriminate).
    destruct (Hsent Hfree) as [Hrun _].
    apply (f_equal (fun out => trace (snd out))) in Hrun. exact Hrun.
  - pose proof (supplied_messages_sent_unchanged (RT := runtime) hosted_model
                  (PyStr "ignored") (PyStr "ignored too")
                  [[("role", PyStr "user"); ("content", PyStr "Hi")]]
                  0 1 512 PyNone 1 false [("seed", PyInt 42)] world0)
      as Hclaim.
    cbv beta zeta in Hclaim. destruct Hclaim as (_ & _ & Hrepeated).
    apply (Hrepeated "seed"); simpl; tauto.
Defined.

(** Both registered identifiers, the one with the nested artifact and the
    one with the plain string: neither is loaded. *)
Lemma registered_artifact_is_never_extracted_witness :
  pickle_files "./prompts/llama3.pkl" = Some plain_artifact
  /\ _load_optimized_prompt
       (SelfHosted (engine_model templating_tokenizer))
       (model_mapping (auto_model (Hosted hosted_model))) world0
     = (Raise (TypeError "'dict' object is not callable"), world0)
  /\ pickle_files "./prompts/gpt35.pkl" = Some structured_artifact
  /\ _load_optimized_prompt (Hosted hosted_model)
       (model_mapping (auto_model (Hosted hosted_model))) world0
     = (Raise (TypeError "'dict' object is not callable"), world0).
Proof.
  split; [reflexivity|].
  split.
  { exact (proj1 (registered_artifact_is_never_extracted (RT := runtime)
                    (SelfHosted (engine_model templating_tokenizer))
                    (model_mapping (auto_model (Hosted hosted_model)))
                    "./prompts/llama3.pkl" plain_artifact world0
                    eq_refl eq_refl)). }
  split; [reflexivity|].
  exact (proj1 (registered_artifact_is_never_extracted (RT := runtime)
                  (Hosted hosted_model)
                  (model_mapping (auto_model (Hosted hosted_model)))
                  "./prompts/gpt35.pkl" structured_artifact world0
                  eq_refl eq_refl)).
Defined.

End Concrete.

(* ================================================================= *)
(** ** The embedding index and the ranking, further *)

Section Index.

Context `{RT : Runtime}.

Lemma get_set_same {V} (k : string) (v : V) (d : dict V) :
  Dict.get k (Dict.set k v d) = Some v.
Proof.
  induction d as [|[k' v'] d IH]; simpl.
  - now rewrite String.eqb_refl.
  - destruct (String.eqb_spec k k') as [->|Hne]; simpl.
    + now rewrite String.eqb_refl.
    + destruct (String.eqb_spec k k'); [contradiction | exact IH].
Qed.

Lemma get_set_other {V} (k k' : string) (v : V) (d : dict V) :
  k <> k' -> Dict.get k (Dict.set k' v d) = Dict.get k d.
Proof.
  intros Hne. induction d as [|[k0 v0] d IH]; simpl.
  - destruct (String.eqb_spec k k'); [contradiction | reflexivity].
  - destruct (String.eqb_spec k' k0) as [->|Hne0]; simpl.
    + destruct (String.eqb_spec k k0); [contradiction | reflexivity].
    + now rewrite IH.
Qed.

Lemma get_of_tabulated {V} (f : string -> V) (q : string) (examples : dict string) :
  Dict.get q (map (fun k => (k, f k)) (Dict.keys examples))
  = if Dict.mem q examples then Some (f q) else None.
Proof.
  unfold Dict.mem.
  induction examples as [|[k a] examples IH]; simpl; [reflexivity|].
  destruct (String.eqb_spec q k) as [->|Hne]; [reflexivity | exact IH].
Qed.

(** X1. The index [_compute_icl_query_embeddings] builds from an example
    dict has the keys of that dict, in the same order, and looking a query
    up in it gives the embedding of that query if it is an example and
    nothing otherwise. *)
Theorem index_holds_each_example (encode : string -> vector)
    (examples : dict string) :
  NoDup (Dict.keys examples) ->
  Dict.keys (_compute_icl_query_embeddings encode examples)
  = Dict.keys examples
  /\ forall q,
       Dict.get q (_compute_icl_query_embeddings encode examples)
       = if Dict.mem q examples then Some (encode q) else None.
Proof.
  intros Hnd. split; [now apply embeddings_keys|].
  intros q. rewrite embeddings_of_dict by assumption.
  apply get_of_tabulated.
Qed.

Lemma slice_negative {A} (k : Z) (l : list A) :
  (k < 0)%Z ->
  let dropped := skipn (List.length l - Z.to_nat (- k)) l in
  py_slice_to k l ++ dropped = l
  /\ Z.of_nat (List.length dropped)
     = Z.min (- k) (Z.of_nat (List.length l)).
Proof.
  intros Hk. cbv zeta. unfold py_slice_to.
  destruct (Z.leb_spec 0 k); [lia|].
  split; [apply firstn_skipn|].
  rewrite length_skipn. lia.
Qed.

Lemma ranking_length (self : AutoModel) (query : string) :
  List.length (sort_reverse_by_fst (all_similarities self query))
  = List.length (icl_examples self).
Proof.
  rewrite (Permutation_length (sort_reverse_perm _)).
  unfold all_similarities, Dict.keys. now rewrite !length_map.
Qed.

Lemma Qltb_not_same (a b s : Q) :
  Qltb a b = true -> Qeq_bool a s = true -> Qeq_bool b s = false.
Proof.
  unfold Qltb. rewrite negb_true_iff. intros Hlt Ha.
  destruct (Qeq_bool b s) eqn:Hb; [|reflexivity].
  apply Qeq_bool_iff in Ha. apply Qeq_bool_iff in Hb.
  assert (Hle : (b <= a)%Q) by (rewrite Ha, Hb; apply Qle_refl).
  apply Qle_bool_iff in Hle. congruence.
Qed.

Lemma insert_desc_stable {A} (s : Q) (x : Q * A) (l : list (Q * A)) :
  filter (fun e => Qeq_bool (fst e) s) (insert_desc x l)
  = filter (fun e => Qeq_bool (fst e) s) (x :: l).
Proof.
  induction l as [|y l IH]; [reflexivity|].
  simpl insert_desc. destruct (Qltb (fst x) (fst y)) eqn:Hcmp; [|reflexivity].
  simpl in *. rewrite IH.
  destruct (Qeq_bool (fst x) s) eqn:Hx; [|reflexivity].
  now rewrite (Qltb_not_same _ _ _ Hcmp Hx).
Qed.

Lemma sort_reverse_stable {A} (s : Q) (l : list (Q * A)) :
  filter (fun e => Qeq_bool (fst e) s) (sort_reverse_by_fst l)
  = filter (fun e => Qeq_bool (fst e) s) l.
Proof.
  induction l as [|x l IH]; [reflexivity|].
  simpl sort_reverse_by_fst. rewrite insert_desc_stable.
  simpl. now rewrite IH.
Qed.

(** X7. Outside the range [generate] lets through, the retriever follows
    Python's slice: [k = 0] gives no example, and a negative [k] gives the
    ranking without its last [min(-k, |ExampleSet|)] entries: the result
    followed by the dropped entries is the whole ranking, in non-increasing
    order, a rearrangement of the pairs of all examples with ties in the
    order of the example set. *)
Theorem top_k_of_nonpositive_count (self : AutoModel) (query : string) (k : Z) :
  constructed self ->
  exists top dropped,
    _get_top_k_icl_examples self query k = Ok top
    /\ (k = 0%Z -> top = [])
    /\ ((k < 0)%Z ->
        Z.of_nat (List.length dropped)
        = Z.min (- k) (Z.of_nat (List.length (icl_examples self)))
        /\ non_increasing (top ++ dropped)
        /\ Permutation (top ++ dropped) (all_similarities self query)
        /\ forall s,
             filter (fun entry => Qeq_bool (fst entry) s) (top ++ dropped)
             = filter (fun entry => Qeq_bool (fst entry) s)
                 (all_similarities self query)).
Proof.
  intros Hc.
  exists (py_slice_to k (sort_reverse_by_fst (all_similarities self query))),
    (skipn (List.length (sort_reverse_by_fst (all_similarities self query))
            - Z.to_nat (- k))
       (sort_reverse_by_fst (all_similarities self query))).
  split; [now apply top_k_of_constructed|].
  split; [intros ->; reflexivity|].
  intros Hk.
  destruct (slice_negative k
              (sort_reverse_by_fst (all_similarities self query)) Hk)
    as [Hwhole Hlen].
  rewrite Hwhole. rewrite Hlen, ranking_length.
  split; [reflexivity|].
  split; [apply sort_reverse_sorted|].
  split; [apply sort_reverse_perm|].
  intros s. apply sort_reverse_stable.
Qed.

(** X8. Ties are broken by the order of the example set: the retrieved
    pairs are the head of a ranking in which, for every similarity value,
    the examples with exactly that similarity come in the order in which the
    example set lists them. *)
Theorem top_k_ties_keep_example_order (self : AutoModel) (query : string)
    (k : Z) :
  constructed self ->
  exists top rest,
    _get_top_k_icl_examples self query k = Ok top
    /\ non_increasing (top ++ rest)
    /\ forall s,
         filter (same_score s) (top ++ rest)
         = filter (same_score s) (all_similarities self query).
Proof.
  intros Hc.
  destruct (slice_is_prefix k
              (sort_reverse_by_fst (all_similarities self query)))
    as [rest Hrest].
  eexists. exists rest. split; [now apply top_k_of_constructed|].
  rewrite Hrest. split; [apply sort_reverse_sorted|].
  intros s. apply sort_reverse_stable.
Qed.

Lemma keys_of_all_similarities (self : AutoModel) (query : string) :
  map snd (all_similarities self query) = Dict.keys (icl_examples self).
Proof.
  unfold all_similarities. rewrite map_map. simpl. apply map_id.
Qed.

Lemma NoDup_prefix {A} (l1 l2 : list A) : NoDup (l1 ++ l2) -> NoDup l1.
Proof.
  induction l1 as [|x l1 IH]; simpl; intros H; [constructor|].
  inversion H as [|? ? Hx Hrest]; subst.
  constructor; [|auto].
  intros Hin. apply Hx. apply in_or_app. now left.
Qed.

(** X9. With [k >= 1] and at least one example, the first retrieved pair
    has the greatest similarity of all stored examples; every retrieved
    query is a key of the example set, paired with its own cosine similarity
    to the query, and no query is retrieved twice. *)
Theorem top_k_starts_with_the_most_similar (self : AutoModel)
    (query : string) (k : Z) :
  constructed self ->
  (1 <= k)%Z ->
  icl_examples self <> [] ->
  exists best others,
    _get_top_k_icl_examples self query k = Ok (best :: others)
    /\ (forall entry,
          In entry (all_similarities self query) ->
          (fst entry <= fst best)%Q)
    /\ (forall s q,
          In (s, q) (best :: others) ->
          In q (Dict.keys (icl_examples self))
          /\ s = cos_sim (embedding_model self q)
                   (embedding_model self query))
    /\ NoDup (map snd (best :: others)).
Proof.
  intros Hc Hk Hne.
  pose proof (top_k_of_constructed self query k Hc) as Hrun.
  pose proof (sort_reverse_sorted (all_similarities self query)) as Hsorted.
  pose proof (sort_reverse_perm (all_similarities self query)) as Hperm.
  pose proof (ranking_length self query) as Hlen.
  destruct (sort_reverse_by_fst (all_similarities self query))
    as [|best ranked] eqn:Hranking.
  { destruct (icl_examples self); [contradiction | discriminate]. }
  assert (Hslice : py_slice_to k (best :: ranked)
                   = best :: firstn (Z.to_nat k - 1) ranked).
  { unfold py_slice_to. destruct (Z.leb_spec 0 k); [|lia].
    destruct (Z.to_nat k) as [|n] eqn:Hn; [lia|].
    simpl. now rewrite Nat.sub_0_r. }
  exists best, (firstn (Z.to_nat k - 1) ranked).
  rewrite Hrun, Hslice. split; [reflexivity|].
  inversion Hsorted as [|? ? Hs Hall]; subst.
  split; [|split].
  - intros entry Hin.
    apply (Permutation_in _ (Permutation_sym Hperm)) in Hin.
    destruct Hin as [<-|Hin]; [apply Qle_refl|].
    rewrite Forall_forall in Hall. now apply Hall.
  - intros s q Hin. apply in_all_similarities.
    apply (Permutation_in _ Hperm).
    destruct Hin as [<-|Hin]; [now left | right].
    rewrite <- (firstn_skipn (Z.to_nat k - 1) ranked).
    apply in_or_app. now left.
  - assert (Hnd : NoDup (map snd (best :: ranked))).
    { eapply Permutation_NoDup;
        [apply Permutation_map, Permutation_sym, Hperm|].
      rewrite keys_of_all_similarities. apply Hc. }
    rewrite <- (firstn_skipn (Z.to_nat k - 1) ranked) in Hnd.
    simpl in Hnd. rewrite map_app in Hnd.
    change (NoDup ((snd best :: map snd (firstn (Z.to_nat k - 1) ranked))
                     ++ map snd (skipn (Z.to_nat k - 1) ranked))) in Hnd.
    exact (NoDup_prefix _ _ Hnd).
Qed.

End Index.

(* ================================================================= *)
(** ** Prompt assembly at the edges *)

Section Assembly.

Context `{RT : Runtime}.

(** X10. Over an empty example set the retriever returns no pair and the
    assembler appends nothing: with [optimized_icl] set, whatever the count,
    the system prompt is the base prompt itself, whatever value that is. *)
Theorem empty_example_set_appends_nothing (self : AutoModel)
    (use_optimized : bool) (num_optimized_icl : Z) (user_query : string) :
  constructed self ->
  icl_examples self = [] ->
  _get_top_k_icl_examples self user_query num_optimized_icl = Ok []
  /\ _prepare_system_prompt self use_optimized true num_optimized_icl
       user_query
     = Ok (if use_optimized then optimized_prompt self
           else PyStr "You are a helpful assistant").
Proof.
  intros Hc Hempty.
  assert (Hnone :
    _get_top_k_icl_examples self user_query num_optimized_icl = Ok []).
  { rewrite (top_k_of_constructed self user_query num_optimized_icl Hc).
    unfold all_similarities. rewrite Hempty. simpl.
    unfold py_slice_to.
    destruct (0 <=? num_optimized_icl)%Z; now rewrite firstn_nil. }
  split; [exact Hnone|].
  unfold _prepare_system_prompt. rewrite Hnone. reflexivity.
Qed.

End Assembly.

(* ================================================================= *)
(** ** What computations record and what they leave alone *)

Section Effects.

Context {A B : Type}.

Lemma records_ret (P : event -> Prop) (a : A) : records P (ret a).
Proof. intros w. exists []. simpl. now rewrite app_nil_r. Qed.

Lemma records_raise (P : event -> Prop) (e : exn) : records P (@raise A e).
Proof. intros w. exists []. simpl. now rewrite app_nil_r. Qed.

Lemma records_lift (P : event -> Prop) (r : result A) : records P (lift r).
Proof. intros w. exists []. simpl. now rewrite app_nil_r. Qed.

Lemma records_bind (P : event -> Prop) (m : M A) (k : A -> M B) :
  records P m -> (forall a, records P (k a)) -> records P (bind m k).
Proof.
  intros Hm Hk w. unfold bind.
  destruct (Hm w) as [evs1 [H1 F1]].
  destruct (m w) as [[a|e] w1]; simpl in *.
  - destruct (Hk a w1) as [evs2 [H2 F2]].
    exists (evs1 ++ evs2). rewrite H2, H1, app_assoc.
    split; [reflexivity | now apply Forall_app].
  - exists evs1. auto.
Qed.

End Effects.

Lemma records_emit (P : event -> Prop) (ev : event) :
  P ev -> records P (emit ev).
Proof. intros HP w. exists [ev]. simpl. auto. Qed.

Lemma records_getenv (P : event -> Prop) (k : string) : records P (getenv k).
Proof. intros w. exists []. simpl. now rewrite app_nil_r. Qed.

Lemma records_setenv (P : event -> Prop) (k v : string) :
  records P (setenv k v).
Proof.
  intros w. exists []. unfold setenv.
  destruct (has_nul k || has_nul v); simpl; now rewrite app_nil_r.
Qed.

Lemma has_nul_spec (s : string) :
  has_nul s = true <-> In (ascii_of_nat 0) (list_ascii_of_string s).
Proof.
  unfold has_nul. rewrite existsb_exists. split.
  - intros [c [Hin Heq]]. apply Ascii.eqb_eq in Heq. now subst c.
  - intros Hin. exists (ascii_of_nat 0). split; [assumption|].
    apply Ascii.eqb_refl.
Qed.

Lemma setenv_device (v : string) (w : world) :
  ~ In (ascii_of_nat 0) (list_ascii_of_string v) ->
  setenv "CUDA_VISIBLE_DEVICES" v w
  = (Ok tt, {| environ := Dict.set "CUDA_VISIBLE_DEVICES" v (environ w);
               openai_api_key := openai_api_key w;
               trace := trace w |}).
Proof.
  intros Hclean. unfold setenv.
  destruct (has_nul v) eqn:Hnul; [|reflexivity].
  apply has_nul_spec in Hnul. contradiction.
Qed.

Lemma records_set_key (P : event -> Prop) (key : string) :
  records P (set_openai_api_key key).
Proof. intros w. exists []. simpl. now rewrite app_nil_r. Qed.

Lemma records_hosted_init `{RT : Runtime} (P : event -> Prop) (name : string)
    (timeout : Z) :
  records P (OpenAIChatModel_init name timeout).
Proof.
  intros w. exists []. rewrite hosted_init_run.
  destruct (Dict.get "OPENAI_API_KEY" (environ w)); simpl;
    now rewrite app_nil_r.
Qed.

Lemma no_backend_call_in_init (evs : list event) :
  Forall init_event evs ->
  filter is_backend_call evs = []
  /\ forall path mode,
       In (EvOpen path mode) evs ->
       mode = "r"
       /\ (path = "./data/model_mapping.json"
           \/ path = "./data/ICL_examples.json").
Proof.
  induction 1 as [|ev evs Hev _ [IHcalls IHopens]]; [split; [reflexivity|]|].
  - intros path mode [].
  - split.
    + destruct Hev as [->|[->|[line ->]]]; simpl; exact IHcalls.
    + intros path mode [Heq|Hin]; [|now apply IHopens].
      destruct Hev as [->|[->|[line ->]]]; inversion Heq; subst; auto.
Qed.

(* ================================================================= *)
(** ** Construction *)

Section Construction.

Context `{RT : Runtime}.

Lemma records_load_json (file_path : string) :
  init_event (EvOpen file_path "r") -> records init_event (_load_json file_path).
Proof.
  intros Hev. unfold _load_json.
  apply records_bind; [now apply records_emit|]. intros _.
  destruct (json_files file_path); [apply records_ret | apply records_raise].
Qed.

Lemma records_load_prompt (model : backend) (model_mapping : dict string) :
  records init_event (_load_optimized_prompt model model_mapping).
Proof.
  unfold _load_optimized_prompt.
  destruct (negb (Dict.mem (model_name model) model_mapping)).
  - apply records_bind; [|intros; apply records_ret].
    apply records_emit. right. right. eauto.
  - intros w. exists []. simpl. now rewrite app_nil_r.
Qed.

Lemma init_records (name : string) (num_gpus : Z)
    (cuda_visible_devices dtype : string) (gpu_memory_utilization : Q)
    (max_model_len : option Z) (timeout : Z) (use_open_ai : bool)
    (kwargs : dict pyobj) :
  records init_event
    (AutoModel_init name num_gpus cuda_visible_devices dtype
       gpu_memory_utilization max_model_len timeout use_open_ai kwargs).
Proof.
  unfold AutoModel_init.
  apply records_bind; [apply records_setenv|]. intros _.
  apply records_bind; [apply records_load_json; now left|]. intros mapping.
  apply records_bind; [apply records_load_json; right; now left|].
  intros examples.
  apply records_bind; [apply records_lift|]. intros encode.
  apply records_bind.
  - destruct use_open_ai.
    + apply records_bind; [apply records_hosted_init|].
      intros; apply records_ret.
    + apply records_bind; [apply records_lift|]. intros; apply records_ret.
  - intros b. apply records_bind; [apply records_load_prompt|].
    intros; apply records_ret.
Qed.

(** X6. Whatever its arguments and its outcome, [AutoModel.__init__] calls no
    model backend, opens no file but the two JSON files (for reading), and
    never the prompt artifact. *)
Theorem construction_touches_only_the_json_files (name : string)
    (num_gpus : Z) (cuda_visible_devices dtype : string)
    (gpu_memory_utilization : Q) (max_model_len : option Z) (timeout : Z)
    (use_open_ai : bool) (kwargs : dict pyobj) (w : world) :
  exists evs,
    trace (snd (AutoModel_init name num_gpus cuda_visible_devices dtype
                  gpu_memory_utilization max_model_len timeout use_open_ai
                  kwargs w))
    = trace w ++ evs
    /\ filter is_backend_call evs = []
    /\ forall path mode,
         In (EvOpen path mode) evs ->
         mode = "r"
         /\ (path = "./data/model_mapping.json"
             \/ path = "./data/ICL_examples.json").
Proof.
  destruct (init_records name num_gpus cuda_visible_devices dtype
              gpu_memory_utilization max_model_len timeout use_open_ai
              kwargs w) as [evs [Htrace Hall]].
  exists evs. split; [exact Htrace|].
  now apply no_backend_call_in_init.
Qed.

(** X3. A device string with an embedded NUL stops [AutoModel.__init__] at
    line 24: the assignment to [os.environ] raises [ValueError], the
    environment is left as it was, no file is opened and no backend
    constructed. *)
Theorem construction_refuses_nul_device_string (name : string)
    (num_gpus : Z) (cuda_visible_devices dtype : string)
    (gpu_memory_utilization : Q) (max_model_len : option Z) (timeout : Z)
    (use_open_ai : bool) (kwargs : dict pyobj) (w : world) :
  In (ascii_of_nat 0) (list_ascii_of_string cuda_visible_devices) ->
  AutoModel_init name num_gpus cuda_visible_devices dtype
    gpu_memory_utilization max_model_len timeout use_open_ai kwargs w
  = (Raise (ValueError "embedded null byte"), w).
Proof.
  intros Hnul. apply has_nul_spec in Hnul.
  unfold AutoModel_init. unfold bind at 1. unfold setenv at 1.
  rewrite Hnul, orb_true_r. reflexivity.
Qed.

(** X4. A missing data file stops construction at once with
    [FileNotFoundError]: without the registry file only that one open is
    recorded; with it but without the example file, the two opens; in both
    cases no credential is bound and no backend is constructed. *)
Theorem construction_needs_both_json_files (name : string) (num_gpus : Z)
    (cuda_visible_devices dtype : string) (gpu_memory_utilization : Q)
    (max_model_len : option Z) (timeout : Z) (use_open_ai : bool)
    (kwargs : dict pyobj) (w : world) :
  ~ In (ascii_of_nat 0) (list_ascii_of_string cuda_visible_devices) ->
  let run :=
    AutoModel_init name num_gpus cuda_visible_devices dtype
      gpu_memory_utilization max_model_len timeout use_open_ai kwargs w in
  let started :=
    {| environ := Dict.set "CUDA_VISIBLE_DEVICES" cuda_visible_devices
                    (environ w);
       openai_api_key := openai_api_key w;
       trace := trace w |} in
  (json_files "./data/model_mapping.json" = None ->
   run = (Raise (FileNotFoundError "./data/model_mapping.json"),
          record_event (EvOpen "./data/model_mapping.json" "r") started))
  /\ (json_files "./data/model_mapping.json" <> None ->
      json_files "./data/ICL_examples.json" = None ->
      run = (Raise (FileNotFoundError "./data/ICL_examples.json"),
             record_event (EvOpen "./data/ICL_examples.json" "r")
               (record_event (EvOpen "./data/model_mapping.json" "r")
                  started))).
Proof.
  intros Hclean. cbv zeta. split.
  - intros Hmissing.
    unfold AutoModel_init. unfold bind at 1.
    rewrite (setenv_device _ _ Hclean).
    unfold _load_json, bind, emit, raise, record_event.
    rewrite Hmissing. reflexivity.
  - intros Hregistry Hmissing.
    unfold AutoModel_init. unfold bind at 1.
    rewrite (setenv_device _ _ Hclean).
    unfold _load_json, bind, emit, raise, ret, record_event.
    destruct (json_files "./data/model_mapping.json"); [|contradiction].
    rewrite Hmissing. reflexivity.
Qed.

(** X5. With both data files and the embedding model in place, constructing
    the orchestrator for the hosted API without [OPENAI_API_KEY] raises the
    [ValueError] of [OpenAIChatModel.__init__], after the two files were
    read and with no credential bound. *)
Theorem construction_without_credential (name : string) (num_gpus : Z)
    (cuda_visible_devices dtype : string) (gpu_memory_utilization : Q)
    (max_model_len : option Z) (timeout : Z) (kwargs : dict pyobj)
    (w : world) registry examples encode :
  ~ In (ascii_of_nat 0) (list_ascii_of_string cuda_visible_devices) ->
  json_files "./data/model_mapping.json" = Some registry ->
  json_files "./data/ICL_examples.json" = Some examples ->
  SentenceTransformer "all-mpnet-base-v2" = Ok encode ->
  Dict.get "OPENAI_API_KEY" (environ w) = None ->
  AutoModel_init name num_gpus cuda_visible_devices dtype
    gpu_memory_utilization max_model_len timeout true kwargs w
  = (Raise (ValueError credential_missing),
     {| environ := Dict.set "CUDA_VISIBLE_DEVICES" cuda_visible_devices
                     (environ w);
        openai_api_key := openai_api_key w;
        trace := trace w ++ [EvOpen "./data/model_mapping.json" "r";
                             EvOpen "./data/ICL_examples.json" "r"] |}).
Proof.
  intros Hclean Hregistry Hexamples Hencode Hkey.
  unfold AutoModel_init. unfold bind at 1.
  rewrite (setenv_device _ _ Hclean).
  unfold _load_json, OpenAIChatModel_init, bind, emit, raise, ret, lift,
    getenv.
  rewrite Hregistry, Hexamples, Hencode. cbn [environ trace openai_api_key].
  rewrite get_set_other by discriminate. rewrite Hkey.
  now rewrite <- app_assoc.
Qed.

(** X2. An orchestrator that [AutoModel.__init__] returns has an index over
    its example set, a model identifier that is not in the registry, and
    the default string as its optimized prompt; so for such an orchestrator
    [generate] does the same whether [optimized_prompt] is set or not. *)
Theorem constructed_orchestrator_has_the_default_prompt (name : string)
    (num_gpus : Z) (cuda_visible_devices dtype : string)
    (gpu_memory_utilization : Q) (max_model_len : option Z) (timeout : Z)
    (use_open_ai : bool) (kwargs : dict pyobj) (w w' : world)
    (self : AutoModel) :
  AutoModel_init name num_gpus cuda_visible_devices dtype
    gpu_memory_utilization max_model_len timeout use_open_ai kwargs w
  = (Ok self, w') ->
  constructed self
  /\ open_ai_model self = use_open_ai
  /\ Dict.mem (model_name (model self)) (model_mapping self) = false
  /\ optimized_prompt self = PyStr "You are a helpful assistant"
  /\ forall user_query optimized_icl num_optimized_icl temperature top_p
       max_new_tokens stop gen_kwargs w1,
       AutoModel_generate self user_query true optimized_icl
         num_optimized_icl temperature top_p max_new_tokens stop gen_kwargs w1
       = AutoModel_generate self user_query false optimized_icl
           num_optimized_icl temperature top_p max_new_tokens stop
           gen_kwargs w1.
Proof.
  intros Hinit.
  destruct (init_establishes _ _ _ _ _ _ _ _ _ _ _ _ Hinit)
    as (Hc & Hflag & Hmem & Hprompt).
  repeat (split; [assumption|]).
  intros. unfold AutoModel_generate, _prepare_system_prompt,
    self_optimized_prompt.
  rewrite Hprompt. reflexivity.
Qed.

End Construction.

(* ================================================================= *)
(** ** The hosted-API adapter, further *)

Section HostedFurther.

Context `{RT : Runtime}.

Lemma record_event_grows (ev : event) (w : world) :
  trace (record_event ev w) <> trace w.
Proof.
  unfold record_event. simpl. intros H.
  apply (f_equal (@List.length event)) in H.
  rewrite length_app in H. simpl in H. lia.
Qed.

(** X15. When the hosted API answers, [OpenAIChatModel.generate] returns
    the content of the first choice if [num_return_sequences] is 1 (and
    raises [IndexError] if there is no choice), and otherwise the list of the
    contents of all choices in the order of the response, as many as the
    response holds whatever [num_return_sequences] is. This is so whenever
    the extra keyword arguments repeat no keyword of [create]; when they
    repeat one the API is not asked, and the result is a [TypeError]. *)
Theorem hosted_generate_return_shape (self : OpenAIChatModel)
    (user_prompt system_prompt : pyobj) (given : list message)
    (temperature top_p : Q) (max_new_tokens : Z) (stop : pyobj)
    (num_return_sequences : Z) (json_output : bool) (kwargs : dict pyobj)
    (w : world) (choices : list pyobj) :
  let passed :=
    ["model"; "messages"; "temperature"; "max_tokens"; "top_p"; "n"; "stop";
     "response_format"; "seed"] in
  let run :=
    OpenAIChatModel_generate self user_prompt system_prompt (Some given)
      temperature top_p max_new_tokens stop num_return_sequences json_output
      kwargs w in
  ((forall k, In k (map fst kwargs) -> ~ In k passed) ->
   chat_completions_create (client self)
     (chat_request_of self given temperature top_p max_new_tokens stop
        num_return_sequences json_output kwargs)
   = Ok choices ->
   fst run
   = if (num_return_sequences =? 1)%Z
     then match choices with
          | first :: _ => Ok first
          | [] => Raise (IndexError "list index out of range")
          end
     else Ok (PyList choices))
  /\ (forall k,
        In k (map fst kwargs) -> In k passed ->
        exists msg, run = (Raise (TypeError msg), w)).
Proof.
  cbv zeta. rewrite hosted_generate_run. split.
  - intros Hfree Hanswer.
    rewrite (repeated_keyword_none create_keywords kwargs Hfree).
    assert (Hrun :
      fst (returned num_return_sequences
             (chat_completions_create (client self)
                (chat_request_of self given temperature top_p max_new_tokens
                   stop num_return_sequences json_output kwargs)),
           record_event
             (EvChatCompletion
                (chat_request_of self given temperature top_p max_new_tokens
                   stop num_return_sequences json_output kwargs)) w)
      = if (num_return_sequences =? 1)%Z
        then match choices with
             | first :: _ => Ok first
             | [] => Raise (IndexError "list index out of range")
             end
        else Ok (PyList choices)).
    { rewrite Hanswer. simpl.
      destruct (num_return_sequences =? 1)%Z; [|reflexivity].
      now destruct choices. }
    destruct (is_none user_prompt); exact Hrun.
  - intros k Hin Hpassed.
    destruct (repeated_keyword_some create_keywords kwargs k Hin Hpassed)
      as [name Hname].
    rewrite Hname. destruct (is_none user_prompt); eexists; reflexivity.
Qed.

(** X16. [OpenAIChatModel.generate] raises before sending a request in two
    cases only: through the assertion of line 42 (neither messages nor a user
    prompt), or with [TypeError] because an extra keyword argument repeats a
    keyword the adapter passes to [create] itself. So any run that records no
    new event is one of these two (the assertion of line 47 never fires), and
    every other run records exactly one request, changes nothing else, and
    computes its result from the API's answer to that request. *)
Theorem hosted_generate_early_failures
    (self : OpenAIChatModel) (user_prompt system_prompt : pyobj)
    (messages : option (list message)) (temperature top_p : Q)
    (max_new_tokens : Z) (stop : pyobj) (num_return_sequences : Z)
    (json_output : bool) (kwargs : dict pyobj) (w : world) :
  let passed :=
    ["model"; "messages"; "temperature"; "max_tokens"; "top_p"; "n"; "stop";
     "response_format"; "seed"] in
  let run :=
    OpenAIChatModel_generate self user_prompt system_prompt messages
      temperature top_p max_new_tokens stop num_return_sequences json_output
      kwargs w in
  (trace (snd run) = trace w ->
   (messages = None /\ is_none user_prompt = true
    /\ run = (Raise (AssertionError
                       "Either give both system_prompt and user_prompt or give messages"),
              w))
   \/ (exists name msg,
         In name (map fst kwargs) /\ In name passed
         /\ run = (Raise (TypeError msg), w)))
  /\ (trace (snd run) <> trace w ->
      (forall k, In k (map fst kwargs) -> ~ In k passed)
      /\ exists req,
           snd run = record_event (EvChatCompletion req) w
           /\ fst run
              = returned num_return_sequences
                  (chat_completions_create (client self) req)).
Proof.
  cbv zeta. rewrite hosted_generate_run.
  assert (Hearly :
    messages = None /\ is_none user_prompt = true
    \/ ~ (messages = None /\ is_none user_prompt = true)).
  { destruct messages; [right; intros [H _]; discriminate|].
    destruct (is_none user_prompt); [left; auto | right; intros [_ H]].
    discriminate. }
  destruct Hearly as [[-> Hnone]|Hlate].
  - rewrite Hnone. simpl fst; simpl snd. split.
    + intros _. left. auto.
    + intros H. now elim H.
  - assert (Hshape :
      match messages, is_none user_prompt with
      | None, true =>
          (Raise (AssertionError
                    "Either give both system_prompt and user_prompt or give messages"),
           w)
      | _, _ =>
          match repeated_keyword create_keywords kwargs with
          | Some name => (Raise (multiple_values "create" name), w)
          | None =>
              let sent :=
                match messages with
                | Some given => given
                | None =>
                    if is_none system_prompt then [user_message user_prompt]
                    else [system_message system_prompt;
                          user_message user_prompt]
                end in
              let req :=
                chat_request_of self sent temperature top_p max_new_tokens
                  stop num_return_sequences json_output kwargs in
              (returned num_return_sequences
                 (chat_completions_create (client self) req),
               record_event (EvChatCompletion req) w)
          end
      end
      = match repeated_keyword create_keywords kwargs with
        | Some name => (Raise (multiple_values "create" name), w)
        | None =>
            let sent :=
              match messages with
              | Some given => given
              | None =>
                  if is_none system_prompt then [user_message user_prompt]
                  else [system_message system_prompt;
                        user_message user_prompt]
              end in
            let req :=
              chat_request_of self sent temperature top_p max_new_tokens
                stop num_return_sequences json_output kwargs in
            (returned num_return_sequences
               (chat_completions_create (client self) req),
             record_event (EvChatCompletion req) w)
        end).
    { destruct messages; [reflexivity|].
      destruct (is_none user_prompt); [|reflexivity].
      now elim Hlate. }
    rewrite Hshape. clear Hshape.
    destruct (repeated_keyword create_keywords kwargs) as [name|] eqn:Hname.
    + apply repeated_keyword_found in Hname as [Hin Hpassed].
      simpl fst; simpl snd. split.
      * intros _. right. exists name. eexists. repeat split; assumption.
      * intros H. now elim H.
    + cbv zeta. simpl fst; simpl snd. split.
      * intros H. exfalso. now apply (record_event_grows _ _ H).
      * intros _. split; [exact (repeated_keyword_free _ _ Hname)|].
        eexists. split; reflexivity.
Qed.

(** X17. Construction followed by a call with given messages. Without
    [OPENAI_API_KEY] the outcome is the [ValueError] of construction and no
    call is made. With the variable set to [key], [openai.api_key] is [key]
    afterwards; if the library's constructor raises, that exception is the
    outcome and no request is made; if it returns a client and the extra
    keyword arguments repeat no keyword of [create], the one request goes
    through that client under the model name given at construction. *)
Theorem hosted_init_then_generate (name : string) (timeout : Z)
    (user_prompt system_prompt : pyobj) (given : list message)
    (temperature top_p : Q) (max_new_tokens : Z) (stop : pyobj)
    (num_return_sequences : Z) (json_output : bool) (kwargs : dict pyobj)
    (w : world) :
  let program :=
    self <- OpenAIChatModel_init name timeout ;;
    OpenAIChatModel_generate self user_prompt system_prompt (Some given)
      temperature top_p max_new_tokens stop num_return_sequences json_output
      kwargs in
  (Dict.get "OPENAI_API_KEY" (environ w) = None ->
   program w
   = (Raise (ValueError
               "OPENAI_API_KEY not set, please run `export OPENAI_API_KEY=<your key>` to set it"),
      w))
  /\ forall key,
       Dict.get "OPENAI_API_KEY" (environ w) = Some key ->
       (forall e,
          openai_OpenAI (environ w) timeout = Raise e ->
          program w
          = (Raise e,
             {| environ := environ w;
                openai_api_key := Some key;
                trace := trace w |}))
       /\ (forall c,
             openai_OpenAI (environ w) timeout = Ok c ->
             (forall k,
                In k (map fst kwargs) ->
                ~ In k ["model"; "messages"; "temperature"; "max_tokens";
                        "top_p"; "n"; "stop"; "response_format"; "seed"]) ->
             let req :=
               {| req_model := name;
                  req_messages := given;
                  req_temperature := temperature;
                  req_max_tokens := max_new_tokens;
                  req_top_p := top_p;
                  req_n := num_return_sequences;
                  req_stop := stop;
                  req_response_format :=
                    if json_output
                    then Some [("type", PyStr "json_object")] else None;
                  req_seed := 0;
                  req_kwargs := kwargs |} in
             program w
             = (returned num_return_sequences
                  (chat_completions_create c req),
                {| environ := environ w;
                   openai_api_key := Some key;
                   trace := trace w ++ [EvChatCompletion req] |})).
Proof.
  cbv zeta. split.
  - intros Hkey. unfold bind at 1. rewrite hosted_init_run, Hkey. reflexivity.
  - intros key Hkey. split.
    + intros e He. unfold bind at 1. rewrite hosted_init_run, Hkey, He.
      reflexivity.
    + intros c Hc Hfree. unfold bind at 1.
      rewrite hosted_init_run, Hkey, Hc.
      rewrite hosted_generate_run.
      rewrite (repeated_keyword_none create_keywords kwargs Hfree).
      destruct (is_none user_prompt); reflexivity.
Qed.

End HostedFurther.

(* ================================================================= *)
(** ** The artifact loader, further *)

Section ArtifactFurther.

Context `{RT : Runtime}.

(** X18. The fallback covers the extraction only: when there is no file at
    the path, lines 83 to 91 raise [FileNotFoundError] after the attempt to
    open it. *)
Theorem missing_artifact_file_raises (prompt_path : string) (w : world) :
  pickle_files prompt_path = None ->
  load_prompt_artifact prompt_path w
  = (Raise (FileNotFoundError prompt_path),
     record_event (EvOpen prompt_path "rb") w).
Proof.
  intros Hfile.
  unfold load_prompt_artifact, pickle_load, bind, emit, raise, record_event.
  now rewrite Hfile.
Qed.

(** X19. Shapes on which the nested access fails and the whole artifact
    becomes the prompt: an artifact that is not an object with attributes; an
    object without [terminal_node]; a terminal node without [state]; an empty
    [state] list or tuple; a last state without [system_prompt]. *)
Theorem extraction_returns_artifact_on_other_shapes (artifact : pyobj) :
  ((forall cls attrs, artifact <> PyInst cls attrs) ->
   extract_model_prompt artifact = artifact)
  /\ (forall cls attrs,
        artifact = PyInst cls attrs ->
        Dict.get "terminal_node" attrs = None ->
        extract_model_prompt artifact = artifact)
  /\ (forall cls attrs node_cls node_attrs,
        artifact = PyInst cls attrs ->
        Dict.get "terminal_node" attrs = Some (PyInst node_cls node_attrs) ->
        Dict.get "state" node_attrs = None
        \/ Dict.get "state" node_attrs = Some (PyList [])
        \/ Dict.get "state" node_attrs = Some (PyTuple []) ->
        extract_model_prompt artifact = artifact)
  /\ (forall cls attrs node_cls node_attrs states state_cls state_attrs,
        artifact = PyInst cls attrs ->
        Dict.get "terminal_node" attrs = Some (PyInst node_cls node_attrs) ->
        Dict.get "state" node_attrs
        = Some (PyList (states ++ [PyInst state_cls state_attrs])) ->
        Dict.get "system_prompt" state_attrs = None ->
        extract_model_prompt artifact = artifact).
Proof.
  unfold extract_model_prompt, nested_system_prompt.
  split; [|split; [|split]].
  - intros Hshape. destruct artifact; try reflexivity.
    now elim (Hshape cls attrs).
  - intros cls attrs -> Hnode. simpl. now rewrite Hnode.
  - intros cls attrs node_cls node_attrs -> Hnode Hstate. simpl.
    rewrite Hnode. simpl.
    destruct Hstate as [H|[H|H]]; now rewrite H.
  - intros cls attrs node_cls node_attrs states state_cls state_attrs
      -> Hnode Hstate Hprompt.
    simpl. rewrite Hnode. simpl. rewrite Hstate. simpl.
    rewrite rev_app_distr. simpl. now rewrite Hprompt.
Qed.

End ArtifactFurther.

(* ================================================================= *)
(** ** [AutoModel.generate], further *)

Section GenerateFurther.

Context `{RT : Runtime}.

Ltac unchanged := left; reflexivity.

Ltac one_call := right; eexists; split; [|reflexivity]; reflexivity.

(** X12. One call of [AutoModel.generate], whatever its arguments and its
    outcome, either leaves the process state as it was or adds exactly one
    event to it, a call to a model backend: it prints nothing, opens no file,
    touches neither the environment nor the bound credential, and never
    calls a backend twice. *)
Theorem generate_makes_at_most_one_backend_call (self : AutoModel)
    (user_query : string) (optimized_prompt optimized_icl : bool)
    (num_optimized_icl : Z) (temperature top_p : Q) (max_new_tokens : Z)
    (stop : pyobj) (kwargs : dict pyobj) (w : world) :
  let after :=
    snd (AutoModel_generate self user_query optimized_prompt optimized_icl
           num_optimized_icl temperature top_p max_new_tokens stop kwargs w) in
  after = w
  \/ exists ev, is_backend_call ev = true /\ after = record_event ev w.
Proof.
  cbv zeta. rewrite generate_run.
  destruct (optimized_icl && negb (0 <? num_optimized_icl)%Z); [unchanged|].
  destruct (_prepare_system_prompt self optimized_prompt optimized_icl
              num_optimized_icl user_query) as [system_prompt|e];
    [|unchanged].
  destruct (model self) as [m|m].
  - destruct (repeated_keyword hosted_call_keywords kwargs); [unchanged|].
    rewrite hosted_generate_run. simpl.
    destruct (repeated_keyword create_keywords _); simpl;
      [unchanged | one_call].
  - destruct (tokenizer_getattr (tokenizer m) "chat_tempalte")
      as [chat_template|e]; [|unchanged].
    destruct (if negb (is_none chat_template) then _ else _)
      as [prompt|e]; simpl; [one_call | unchanged].
Qed.

(** X13. On the hosted route, once the entry check has passed and the
    system prompt is assembled, and with plain keyword arguments, the outcome
    of [generate] is the backend's: an exception the API raises reaches the
    caller as it is, after the one recorded request and without a second
    attempt; a response without choices raises [IndexError]; otherwise the
    content of the first choice is returned and the others dropped. *)
Theorem hosted_route_outcomes (self : AutoModel) (m : OpenAIChatModel)
    (user_query : string) (optimized_prompt optimized_icl : bool)
    (num_optimized_icl : Z) (temperature top_p : Q) (max_new_tokens : Z)
    (stop : pyobj) (kwargs : dict pyobj) (w : world) (system_prompt : pyobj) :
  model self = Hosted m ->
  (optimized_icl = true -> (0 < num_optimized_icl)%Z) ->
  _prepare_system_prompt self optimized_prompt optimized_icl
    num_optimized_icl user_query = Ok system_prompt ->
  plain_kwargs kwargs ->
  let user :=
    [("role", PyStr "user"); ("content", PyStr ("# Query:
" ++ user_query ++ "

# Answer:
<START>")%string)] in
  let req :=
    {| req_model := openai_model_name m;
       req_messages :=
         if is_none system_prompt then [user]
         else [[("role", PyStr "system"); ("content", system_prompt)]; user];
       req_temperature := temperature;
       req_max_tokens := max_new_tokens;
       req_top_p := top_p;
       req_n := 1;
       req_stop := stop;
       req_response_format := None;
       req_seed := 0;
       req_kwargs := ("stream", PyBool false) :: kwargs |} in
  let run :=
    AutoModel_generate self user_query optimized_prompt optimized_icl
      num_optimized_icl temperature top_p max_new_tokens stop kwargs w in
  let sent := record_event (EvChatCompletion req) w in
  (forall e,
     chat_completions_create (client m) req = Raise e ->
     run = (Raise e, sent))
  /\ (chat_completions_create (client m) req = Ok [] ->
      run = (Raise (IndexError "list index out of range"), sent))
  /\ (forall first others,
        chat_completions_create (client m) req = Ok (first :: others) ->
        run = (Ok first, sent)).
Proof.
  intros Hmodel Hk Hprompt Hplain user req run sent.
  assert (Hrun :
    run = (returned 1 (chat_completions_create (client m) req), sent)).
  { subst run sent req user.
    rewrite (hosted_route_run _ _ _ _ _ _ _ _ _ _ _ _ _ Hmodel Hk Hprompt
               Hplain).
    cbv zeta. unfold chat_request_of.
    now destruct (is_none system_prompt). }
  rewrite Hrun. repeat split.
  - intros e ->. reflexivity.
  - intros ->. reflexivity.
  - intros first others ->. reflexivity.
Qed.

(** X20. Without [optimized_icl] the example count plays no part: the
    entry check is skipped, the system prompt is the base prompt, and
    [generate] does the same for every [num_optimized_icl], non-positive
    ones included; on the hosted route, with plain keyword arguments, it
    sends the base prompt as the content of the system message (no system
    message if it is [None]) and the user turn. *)
Theorem count_is_ignored_without_icl (self : AutoModel) (user_query : string)
    (use_optimized : bool) (num_optimized_icl other_count : Z)
    (temperature top_p : Q) (max_new_tokens : Z) (stop : pyobj)
    (kwargs : dict pyobj) (w : world) :
  let base :=
    if use_optimized then optimized_prompt self
    else PyStr "You are a helpful assistant" in
  _prepare_system_prompt self use_optimized false num_optimized_icl
    user_query
  = Ok base
  /\ AutoModel_generate self user_query use_optimized false
       num_optimized_icl temperature top_p max_new_tokens stop kwargs w
     = AutoModel_generate self user_query use_optimized false
         other_count temperature top_p max_new_tokens stop kwargs w
  /\ forall m,
       model self = Hosted m ->
       plain_kwargs kwargs ->
       let user :=
         [("role", PyStr "user"); ("content", PyStr ("# Query:
" ++ user_query ++ "

# Answer:
<START>")%string)] in
       let req :=
         {| req_model := openai_model_name m;
            req_messages :=
              if is_none base then [user]
              else [[("role", PyStr "system"); ("content", base)]; user];
            req_temperature := temperature;
            req_max_tokens := max_new_tokens;
            req_top_p := top_p;
            req_n := 1;
            req_stop := stop;
            req_response_format := None;
            req_seed := 0;
            req_kwargs := ("stream", PyBool false) :: kwargs |} in
       AutoModel_generate self user_query use_optimized false
         num_optimized_icl temperature top_p max_new_tokens stop kwargs w
       = (returned 1 (chat_completions_create (client m) req),
          record_event (EvChatCompletion req) w).
Proof.
  cbv zeta. split; [reflexivity|]. split; [reflexivity|].
  intros m Hmodel Hplain.
  rewrite (hosted_route_run self m user_query use_optimized false
             num_optimized_icl temperature top_p max_new_tokens stop
             kwargs w (base_prompt self use_optimized) Hmodel
             ltac:(discriminate) eq_refl Hplain).
  cbv zeta. unfold chat_request_of, user_message, system_message, user_turn,
    base_prompt, self_optimized_prompt, default_prompt.
  now destruct (is_none _).
Qed.

(** X22. Keyword arguments on the hosted route. A keyword argument that
    repeats what the call of lines 165 to 168 already binds ([stream],
    [num_return_sequences] or one of the seven positional parameters) makes
    [generate] raise [TypeError] with nothing sent. A [json_output] keyword
    argument is taken by the adapter's parameter of that name: it is not
    forwarded to the API, and the request asks for a JSON object exactly when
    its value is true. *)
Theorem hosted_route_keyword_arguments (self : AutoModel)
    (m : OpenAIChatModel) (user_query : string)
    (optimized_prompt optimized_icl : bool) (num_optimized_icl : Z)
    (temperature top_p : Q) (max_new_tokens : Z) (stop : pyobj)
    (kwargs : dict pyobj) (w : world) (system_prompt : pyobj) :
  model self = Hosted m ->
  (optimized_icl = true -> (0 < num_optimized_icl)%Z) ->
  _prepare_system_prompt self optimized_prompt optimized_icl
    num_optimized_icl user_query = Ok system_prompt ->
  let run extra :=
    AutoModel_generate self user_query optimized_prompt optimized_icl
      num_optimized_icl temperature top_p max_new_tokens stop extra w in
  (forall k,
     In k (map fst kwargs) ->
     In k ["user_prompt"; "system_prompt"; "messages"; "temperature";
           "top_p"; "max_new_tokens"; "stop"; "num_return_sequences";
           "stream"] ->
     exists msg, run kwargs = (Raise (TypeError msg), w))
  /\ (plain_kwargs kwargs ->
      forall flag : bool,
        let user :=
          [("role", PyStr "user"); ("content", PyStr ("# Query:
" ++ user_query ++ "

# Answer:
<START>")%string)] in
        let req :=
          {| req_model := openai_model_name m;
             req_messages :=
               if is_none system_prompt then [user]
               else [[("role", PyStr "system"); ("content", system_prompt)];
                     user];
             req_temperature := temperature;
             req_max_tokens := max_new_tokens;
             req_top_p := top_p;
             req_n := 1;
             req_stop := stop;
             req_response_format :=
               if flag then Some [("type", PyStr "json_object")] else None;
             req_seed := 0;
             req_kwargs := ("stream", PyBool false) :: kwargs |} in
        run (kwargs ++ [("json_output", PyBool flag)])
        = (returned 1 (chat_completions_create (client m) req),
           record_event (EvChatCompletion req) w)).
Proof.
  intros Hmodel Hk Hprompt. cbv zeta. split.
  - intros k Hin Hbound.
    destruct (repeated_keyword_some hosted_call_keywords kwargs k Hin Hbound)
      as [name Hname].
    rewrite (hosted_route_repeated _ _ _ _ _ _ _ _ _ _ _ _ _ _ Hmodel Hk
               Hprompt Hname).
    eexists. reflexivity.
  - intros Hplain flag.
    destruct (plain_kwargs_hosted kwargs Hplain)
      as (Hcall & Hjson & Hrest & Hcreate).
    assert (Hkeys : forall k, In k (map fst kwargs) -> k <> "json_output").
    { intros k Hin ->. apply (Hplain _ Hin). simpl. tauto. }
    assert (Hcall' :
      repeated_keyword hosted_call_keywords
        (kwargs ++ [("json_output", PyBool flag)]) = None).
    { apply repeated_keyword_none. intros k Hin Hbound.
      rewrite map_app, in_app_iff in Hin. destruct Hin as [Hin|[<-|[]]].
      - exact (repeated_keyword_free _ _ Hcall k Hin Hbound).
      - simpl in Hbound. intuition discriminate. }
    assert (Hget :
      Dict.get "json_output" (kwargs ++ [("json_output", PyBool flag)])
      = Some (PyBool flag)).
    { clear - Hkeys. induction kwargs as [|[k v] kwargs IH]; [reflexivity|].
      change (Dict.get "json_output"
                (((k, v) :: kwargs) ++ [("json_output", PyBool flag)]))
        with (if String.eqb "json_output" k then Some v
              else Dict.get "json_output"
                     (kwargs ++ [("json_output", PyBool flag)])).
      destruct (String.eqb_spec "json_output" k) as [<-|Hne].
      - now elim (Hkeys "json_output" (or_introl eq_refl)).
      - apply IH. intros k' Hin. apply Hkeys. now right. }
    assert (Hwithout :
      without_key "json_output" (kwargs ++ [("json_output", PyBool flag)])
      = kwargs).
    { unfold without_key. rewrite filter_app. simpl.
      fold (without_key "json_output" kwargs). rewrite Hrest.
      apply app_nil_r. }
    rewrite (generate_after_assembly _ _ _ _ _ _ _ _ _ _ _ _ Hk Hprompt).
    rewrite Hmodel, Hcall', Hget, Hwithout, hosted_generate_run, Hcreate.
    cbv zeta. unfold chat_request_of, user_message, system_message,
      user_turn, py_truth, builtin_truth.
    now destruct (is_none system_prompt).
Qed.

End GenerateFurther.

Section SelfHostedFurther.

Context `{RT : Runtime}.

(** X14. On the self-hosted route, for a tokenizer object that does carry
    an attribute spelt [chat_tempalte] and a system prompt that is a string:
    if the attribute is [None] the engine receives the system prompt, a
    blank line and the user turn as one string; otherwise it receives what
    [apply_chat_template] makes of the (system, user) conversation, and an
    exception of the templating reaches the caller before any engine call.
    In both cases the engine is called once and its outcome returned as it
    is. *)
Theorem selfhosted_route_with_attribute (self : AutoModel) (m : VLLMModel)
    (user_query : string) (optimized_prompt optimized_icl : bool)
    (num_optimized_icl : Z) (temperature top_p : Q) (max_new_tokens : Z)
    (stop : pyobj) (kwargs : dict pyobj) (w : world)
    (system_prompt : string) (attr : pyobj) :
  model self = SelfHosted m ->
  Dict.get "chat_tempalte" (tok_attrs (tokenizer m)) = Some attr ->
  (optimized_icl = true -> (0 < num_optimized_icl)%Z) ->
  _prepare_system_prompt self optimized_prompt optimized_icl
    num_optimized_icl user_query = Ok (PyStr system_prompt) ->
  let run :=
    AutoModel_generate self user_query optimized_prompt optimized_icl
      num_optimized_icl temperature top_p max_new_tokens stop kwargs w in
  let req prompt :=
    {| eng_prompt := prompt;
       eng_temperature := temperature;
       eng_top_p := top_p;
       eng_max_new_tokens := max_new_tokens;
       eng_stop := stop;
       eng_kwargs := kwargs |} in
  let conversation :=
    [system_message (PyStr system_prompt);
     user_message (PyStr (user_turn user_query))] in
  (is_none attr = true ->
   let prompt :=
     PyStr (system_prompt ++ nl ++ nl ++ user_turn user_query) in
   run = (VLLMModel_generate m (req prompt),
          record_event (EvEngineGenerate (req prompt)) w))
  /\ (is_none attr = false ->
      forall prompt,
        apply_chat_template (tokenizer m) conversation false true = Ok prompt ->
        run = (VLLMModel_generate m (req prompt),
               record_event (EvEngineGenerate (req prompt)) w))
  /\ (is_none attr = false ->
      forall e,
        apply_chat_template (tokenizer m) conversation false true = Raise e ->
        run = (Raise e, w)).
Proof.
  intros Hmodel Hattr Hk Hprompt. cbv zeta.
  rewrite (selfhosted_generate_dispatch self m user_query optimized_prompt
             optimized_icl num_optimized_icl temperature top_p max_new_tokens
             stop kwargs w system_prompt attr Hmodel Hattr Hk Hprompt).
  split; [|split].
  - intros ->. reflexivity.
  - intros -> prompt Htemplated.
    unfold bind, lift, engine_generate, emit. rewrite Htemplated. reflexivity.
  - intros -> e Htemplated.
    unfold bind, lift. rewrite Htemplated. reflexivity.
Qed.

End SelfHostedFurther.

(* ================================================================= *)
(** ** The further theorems on the concrete installation *)

Section ConcreteFurther.

Import Fixtures.

#[local] Existing Instance Fixtures.runtime.

Ltac dict_keys_distinct :=
  repeat constructor; simpl; intuition discriminate.

Lemma tied_fixture_constructed : constructed tied_model.
Proof. split; [dict_keys_distinct | reflexivity]. Defined.

Lemma empty_fixture_constructed : constructed no_examples_model.
Proof. split; [constructor | reflexivity]. Defined.

Lemma plain_device : ~ In (ascii_of_nat 0) (list_ascii_of_string "0").
Proof. simpl. intuition discriminate. Defined.

Lemma no_kwargs_is_plain : plain_kwargs [].
Proof. intros k []. Defined.

Lemma no_kwargs_repeat_nothing (bound : list string) :
  forall k, In k (map fst (@nil (string * pyobj))) -> ~ In k bound.
Proof. intros k []. Defined.

Lemma index_holds_each_example_witness :
  NoDup (Dict.keys examples)
  /\ Dict.keys (_compute_icl_query_embeddings toy_encode examples)
     = ["What is 2+2?"; "Name a colour."; "Hi"]
  /\ Dict.get "Hi" (_compute_icl_query_embeddings toy_encode examples)
     = Some (toy_encode "Hi")
  /\ Dict.get "Bye" (_compute_icl_query_embeddings toy_encode examples)
     = None.
Proof.
  assert (Hnd : NoDup (Dict.keys examples)) by dict_keys_distinct.
  destruct (index_holds_each_example toy_encode examples Hnd)
    as [Hkeys Hget].
  split; [exact Hnd|]. split; [exact Hkeys|].
  split; [exact (Hget "Hi") | exact (Hget "Bye")].
Defined.

Lemma constructed_orchestrator_has_the_default_prompt_witness :
  exists self w',
    AutoModel_init "gpt-4" 1 "0" "bfloat16" (98 # 100) None 600 true []
      world0
    = (Ok self, w')
    /\ constructed self
    /\ optimized_prompt self = PyStr "You are a helpful assistant"
    /\ AutoModel_generate self "Hi" true true 2 (7 # 10) (95 # 100) 512
         PyNone [] w'
       = AutoModel_generate self "Hi" false true 2 (7 # 10) (95 # 100) 512
           PyNone [] w'.
Proof.
  destruct (AutoModel_init "gpt-4" 1 "0" "bfloat16" (98 # 100) None 600 true
              [] world0) as [[self|e] w'] eqn:Hinit;
    [|vm_compute in Hinit; discriminate].
  destruct (constructed_orchestrator_has_the_default_prompt
              "gpt-4" 1 "0" "bfloat16" (98 # 100) None 600 true [] world0 w'
              self Hinit) as (Hc & _ & _ & Hprompt & Hflag).
  exists self, w'. split; [reflexivity|].
  split; [exact Hc|]. split; [exact Hprompt|]. apply Hflag.
Defined.

Lemma construction_refuses_nul_device_string_witness :
  In (ascii_of_nat 0)
    (list_ascii_of_string (String (ascii_of_nat 0) "0"))
  /\ AutoModel_init "gpt-4" 1 (String (ascii_of_nat 0) "0") "bfloat16"
       (98 # 100) None 600 true [] world0
     = (Raise (ValueError "embedded null byte"), world0).
Proof.
  split; [now left|].
  exact (construction_refuses_nul_device_string (RT := runtime)
           "gpt-4" 1 (String (ascii_of_nat 0) "0") "bfloat16" (98 # 100)
           None 600 true [] world0 (or_introl eq_refl)).
Defined.

Lemma construction_needs_both_json_files_witness :
  @json_files empty_runtime "./data/model_mapping.json" = None
  /\ fst (@AutoModel_init empty_runtime "gpt-4" 1 "0" "bfloat16" (98 # 100)
            None 600 true [] world0)
     = Raise (FileNotFoundError "./data/model_mapping.json")
  /\ @json_files registry_only_runtime "./data/ICL_examples.json" = None
  /\ fst (@AutoModel_init registry_only_runtime "gpt-4" 1 "0" "bfloat16"
            (98 # 100) None 600 true [] world0)
     = Raise (FileNotFoundError "./data/ICL_examples.json").
Proof.
  split; [reflexivity|].
  split.
  { rewrite (proj1 (construction_needs_both_json_files (RT := empty_runtime)
                      "gpt-4" 1 "0" "bfloat16" (98 # 100) None 600 true []
                      world0 plain_device) eq_refl).
    reflexivity. }
  split; [reflexivity|].
  rewrite (proj2 (construction_needs_both_json_files
                    (RT := registry_only_runtime)
                    "gpt-4" 1 "0" "bfloat16" (98 # 100) None 600 true []
                    world0 plain_device) ltac:(discriminate) eq_refl).
  reflexivity.
Defined.

Lemma construction_without_credential_witness :
  Dict.get "OPENAI_API_KEY" (environ world_no_key) = None
  /\ AutoModel_init "gpt-4" 1 "0" "bfloat16" (98 # 100) None 600 true []
       world_no_key
     = (Raise (ValueError credential_missing),
        {| environ := [("HOME", "/root"); ("CUDA_VISIBLE_DEVICES", "0")];
           openai_api_key := None;
           trace := [EvOpen "./data/model_mapping.json" "r";
                     EvOpen "./data/ICL_examples.json" "r"] |}).
Proof.
  split; [reflexivity|].
  exact (construction_without_credential (RT := runtime)
           "gpt-4" 1 "0" "bfloat16" (98 # 100) None 600 [] world_no_key
           _ _ _ plain_device eq_refl eq_refl eq_refl eq_refl).
Defined.

Lemma top_k_of_nonpositive_count_witness :
  constructed (auto_model (Hosted hosted_model))
  /\ exists top dropped,
       _get_top_k_icl_examples (auto_model (Hosted hosted_model))
         "Hi there" (-1)
       = Ok top
       /\ Z.of_nat (List.length dropped) = 1%Z
       /\ non_increasing (top ++ dropped)
       /\ Permutation (top ++ dropped)
            (all_similarities (auto_model (Hosted hosted_model)) "Hi there").
Proof.
  split; [exact hosted_fixture_constructed|].
  destruct (top_k_of_nonpositive_count (auto_model (Hosted hosted_model))
              "Hi there" (-1) hosted_fixture_constructed)
    as (top & dropped & Hrun & _ & Hneg).
  destruct (Hneg ltac:(lia)) as (Hlen & Hsorted & Hperm & _).
  exists top, dropped. auto.
Defined.

(** The same call, and the call with [k = 0], spelled out. *)
Example top_k_negative_and_zero :
  _get_top_k_icl_examples (auto_model (Hosted hosted_model)) "Hi there" (-1)
  = Ok [((113 # 1)%Q, "Name a colour."); ((97 # 1)%Q, "What is 2+2?")]
  /\ _get_top_k_icl_examples (auto_model (Hosted hosted_model)) "Hi there" 0
     = Ok [].
Proof. split; reflexivity. Qed.

Lemma top_k_ties_keep_example_order_witness :
  constructed tied_model
  /\ exists top rest,
       _get_top_k_icl_examples tied_model "x" 2 = Ok top
       /\ non_increasing (top ++ rest)
       /\ filter (same_score (3 # 1)) (top ++ rest)
          = [((3 # 1)%Q, "bb"); ((3 # 1)%Q, "aa")].
Proof.
  split; [exact tied_fixture_constructed|].
  destruct (top_k_ties_keep_example_order tied_model "x" 2
              tied_fixture_constructed) as (top & rest & Hrun & Hs & Htie).
  exists top, rest. split; [exact Hrun|]. split; [exact Hs|].
  rewrite Htie. reflexivity.
Defined.

(** The ranking itself: the two tied examples follow the order of the
    example set, ["bb"] before ["aa"]. *)
Example tied_ranking :
  _get_top_k_icl_examples tied_model "x" 3
  = Ok [((5 # 1)%Q, "cccc"); ((3 # 1)%Q, "bb"); ((3 # 1)%Q, "aa")].
Proof. reflexivity. Qed.

Lemma top_k_starts_with_the_most_similar_witness :
  constructed (auto_model (Hosted hosted_model))
  /\ (1 <= 2)%Z
  /\ icl_examples (auto_model (Hosted hosted_model)) <> []
  /\ exists best others,
       _get_top_k_icl_examples (auto_model (Hosted hosted_model))
         "Hi there" 2
       = Ok (best :: others)
       /\ (forall entry,
             In entry (all_similarities (auto_model (Hosted hosted_model))
                         "Hi there") ->
             (fst entry <= fst best)%Q)
       /\ NoDup (map snd (best :: others)).
Proof.
  split; [exact hosted_fixture_constructed|].
  split; [lia|]. split; [discriminate|].
  destruct (top_k_starts_with_the_most_similar
              (auto_model (Hosted hosted_model)) "Hi there" 2
              hosted_fixture_constructed ltac:(lia) ltac:(discriminate))
    as (best & others & Hrun & Hmax & _ & Hnd).
  exists best, others. auto.
Defined.

Lemma empty_example_set_appends_nothing_witness :
  constructed no_examples_model
  /\ icl_examples no_examples_model = []
  /\ _prepare_system_prompt no_examples_model true true 3 "Hi"
     = Ok (PyStr "Be precise.").
Proof.
  split; [exact empty_fixture_constructed|]. split; [reflexivity|].
  exact (proj2 (empty_example_set_appends_nothing no_examples_model true 3
                  "Hi" empty_fixture_constructed eq_refl)).
Defined.

Lemma hosted_route_outcomes_witness :
  model (auto_model (Hosted hosted_model)) = Hosted hosted_model
  /\ plain_kwargs []
  /\ fst (@AutoModel_generate failing_runtime
            (auto_model (Hosted hosted_model)) "Hi" true true 2
            (7 # 10) (95 # 100) 512 PyNone [] world0)
     = Raise (BackendError "503 Service Unavailable")
  /\ List.length
       (trace (snd (@AutoModel_generate failing_runtime
                      (auto_model (Hosted hosted_model)) "Hi" true true 2
                      (7 # 10) (95 # 100) 512 PyNone [] world0)))
     = 1%nat.
Proof.
  split; [reflexivity|]. split; [exact no_kwargs_is_plain|].
  destruct (@_prepare_system_prompt failing_runtime
              (auto_model (Hosted hosted_model)) true true 2 "Hi")
    as [system_prompt|e] eqn:Hprompt;
    [|vm_compute in Hprompt; discriminate].
  pose proof (hosted_route_outcomes (RT := failing_runtime)
                (auto_model (Hosted hosted_model)) hosted_model "Hi"
                true true 2 (7 # 10) (95 # 100) 512 PyNone [] world0
                system_prompt eq_refl (fun _ => eq_refl) Hprompt
                no_kwargs_is_plain) as Hout.
  cbv zeta in Hout. destruct Hout as (Hraise & _ & _).
  rewrite (Hraise (BackendError "503 Service Unavailable") eq_refl).
  split; reflexivity.
Defined.

Lemma selfhosted_route_with_attribute_witness :
  Dict.get "chat_tempalte" (tok_attrs patched_plain_tokenizer) = Some PyNone
  /\ Dict.get "chat_tempalte" (tok_attrs patched_tokenizer)
     = Some (PyStr "{{ messages }}")
  /\ fst (AutoModel_generate
            (auto_model (SelfHosted (engine_model patched_plain_tokenizer)))
            "Hi" true false 3 (7 # 10) (95 # 100) 512 PyNone [] world0)
     = Ok (PyStr "ok")
  /\ trace (snd (AutoModel_generate
                   (auto_model
                      (SelfHosted (engine_model patched_plain_tokenizer)))
                   "Hi" true false 3 (7 # 10) (95 # 100) 512 PyNone []
                   world0))
     = [EvEngineGenerate
          {| eng_prompt :=
               PyStr ("Be precise." ++ nl ++ nl ++ user_turn "Hi");
             eng_temperature := 7 # 10;
             eng_top_p := 95 # 100;
             eng_max_new_tokens := 512;
             eng_stop := PyNone;
             eng_kwargs := [] |}]
  /\ trace (snd (AutoModel_generate
                   (auto_model (SelfHosted (engine_model patched_tokenizer)))
                   "Hi" true false 3 (7 # 10) (95 # 100) 512 PyNone []
                   world0))
     = [EvEngineGenerate
          {| eng_prompt := PyStr "<templated>";
             eng_temperature := 7 # 10;
             eng_top_p := 95 # 100;
             eng_max_new_tokens := 512;
             eng_stop := PyNone;
             eng_kwargs := [] |}].
Proof.
  split; [reflexivity|]. split; [reflexivity|].
  destruct (selfhosted_route_with_attribute
              (auto_model (SelfHosted (engine_model patched_plain_tokenizer)))
              (engine_model patched_plain_tokenizer) "Hi" true false 3
              (7 # 10) (95 # 100) 512 PyNone [] world0 "Be precise." PyNone
              eq_refl eq_refl ltac:(discriminate) eq_refl)
    as (Hplain & _ & _).
  destruct (selfhosted_route_with_attribute
              (auto_model (SelfHosted (engine_model patched_tokenizer)))
              (engine_model patched_tokenizer) "Hi" true false 3
              (7 # 10) (95 # 100) 512 PyNone [] world0 "Be precise."
              (PyStr "{{ messages }}")
              eq_refl eq_refl ltac:(discriminate) eq_refl)
    as (_ & Htemplated & _).
  rewrite (Hplain eq_refl).
  rewrite (Htemplated eq_refl (PyStr "<templated>") eq_refl).
  repeat split; reflexivity.
Defined.

Lemma hosted_generate_return_shape_witness :
  fst (@OpenAIChatModel_generate three_choice_runtime hosted_model
         PyNone PyNone (Some [user_message (PyStr "Hi")])
         0 1 512 PyNone 2 false [] world0)
  = Ok (PyList [PyStr "first"; PyStr "second"; PyStr "third"])
  /\ fst (@OpenAIChatModel_generate three_choice_runtime hosted_model
            PyNone PyNone (Some [user_message (PyStr "Hi")])
            0 1 512 PyNone 1 false [] world0)
     = Ok (PyStr "first")
  /\ exists msg,
       @OpenAIChatModel_generate three_choice_runtime hosted_model
         PyNone PyNone (Some [user_message (PyStr "Hi")])
         0 1 512 PyNone 1 false [("n", PyInt 3)] world0
       = (Raise (TypeError msg), world0).
Proof.
  split; [|split].
  - pose proof (hosted_generate_return_shape (RT := three_choice_runtime)
                  hosted_model PyNone PyNone [user_message (PyStr "Hi")]
                  0 1 512 PyNone 2 false [] world0
                  [PyStr "first"; PyStr "second"; PyStr "third"]) as Hshape.
    cbv zeta in Hshape. destruct Hshape as [Hanswered _].
    rewrite (Hanswered (no_kwargs_repeat_nothing _) eq_refl).
    reflexivity.
  - pose proof (hosted_generate_return_shape (RT := three_choice_runtime)
                  hosted_model PyNone PyNone [user_message (PyStr "Hi")]
                  0 1 512 PyNone 1 false [] world0
                  [PyStr "first"; PyStr "second"; PyStr "third"]) as Hshape.
    cbv zeta in Hshape. destruct Hshape as [Hanswered _].
    rewrite (Hanswered (no_kwargs_repeat_nothing _) eq_refl).
    reflexivity.
  - pose proof (hosted_generate_return_shape (RT := three_choice_runtime)
                  hosted_model PyNone PyNone [user_message (PyStr "Hi")]
                  0 1 512 PyNone 1 false [("n", PyInt 3)] world0 []) as Hshape.
    cbv zeta in Hshape. destruct Hshape as [_ Hrepeated].
    apply (Hrepeated "n"); simpl; tauto.
Defined.

Lemma hosted_generate_early_failures_witness :
  (exists name msg,
     In name ["seed"]
     /\ OpenAIChatModel_generate hosted_model (PyStr "Hi") PyNone None
          0 1 512 PyNone 1 false [("seed", PyInt 42)] world0
        = (Raise (TypeError msg), world0))
  /\ exists req,
       snd (OpenAIChatModel_generate hosted_model (PyStr "Hi") PyNone None
              0 1 512 PyNone 1 false [] world0)
       = record_event (EvChatCompletion req) world0.
Proof.
  split.
  - pose proof (hosted_generate_early_failures (RT := runtime) hosted_model
                  (PyStr "Hi") PyNone None 0 1 512 PyNone 1 false
                  [("seed", PyInt 42)] world0) as Hout.
    cbv zeta in Hout. destruct Hout as [Hearly _].
    destruct (Hearly eq_refl) as [(_ & Hnone & _)|(name & msg & Hin & _ & Hrun)];
      [discriminate|].
    exists name, msg. split; [exact Hin | exact Hrun].
  - assert (Hsent :
      trace (snd (OpenAIChatModel_generate hosted_model (PyStr "Hi") PyNone
                    None 0 1 512 PyNone 1 false [] world0))
      <> trace world0) by (vm_compute; discriminate).
    pose proof (hosted_generate_early_failures (RT := runtime) hosted_model
                  (PyStr "Hi") PyNone None 0 1 512 PyNone 1 false []
                  world0) as Hout.
    cbv zeta in Hout. destruct Hout as [_ Hlate].
    destruct (Hlate Hsent) as (_ & req & Hsnd & _).
    exists req. exact Hsnd.
Defined.

Lemma hosted_init_then_generate_witness :
  Dict.get "OPENAI_API_KEY" (environ world0) = Some "sk-test"
  /\ (self <- OpenAIChatModel_init "gpt-4" 30 ;;
      OpenAIChatModel_generate self PyNone PyNone
        (Some [[("role", PyStr "user"); ("content", PyStr "Hi")]])
        0 1 512 PyNone 1 false [])
       world0
     = (Ok (PyStr "ok"),
        {| environ := environ world0;
           openai_api_key := Some "sk-test";
           trace :=
             [EvChatCompletion
                {| req_model := "gpt-4";
                   req_messages :=
                     [[("role", PyStr "user"); ("content", PyStr "Hi")]];
                   req_temperature := 0;
                   req_max_tokens := 512;
                   req_top_p := 1;
                   req_n := 1;
                   req_stop := PyNone;
                   req_response_format := None;
                   req_seed := 0;
                   req_kwargs := [] |}] |})
  /\ Dict.get "OPENAI_API_KEY" (environ world_empty_key) = Some ""
  /\ (self <- OpenAIChatModel_init "gpt-4" 30 ;;
      OpenAIChatModel_generate self PyNone PyNone
        (Some [[("role", PyStr "user"); ("content", PyStr "Hi")]])
        0 1 512 PyNone 1 false [])
       world_empty_key
     = (Raise (BackendError
                 "OpenAIError: the api_key client option must be set"),
        {| environ := environ world_empty_key;
           openai_api_key := Some "";
           trace := [] |}).
Proof.
  split; [reflexivity|].
  split.
  { pose proof (hosted_init_then_generate (RT := runtime) "gpt-4" 30 PyNone
                  PyNone [[("role", PyStr "user"); ("content", PyStr "Hi")]]
                  0 1 512 PyNone 1 false [] world0) as Hout.
    cbv zeta in Hout. destruct Hout as [_ Hpresent].
    destruct (Hpresent "sk-test" eq_refl) as [_ Hclient].
    exact (Hclient {| client_timeout := 30; client_api_key := "sk-test" |}
             eq_refl (no_kwargs_repeat_nothing _)). }
  split; [reflexivity|].
  pose proof (hosted_init_then_generate (RT := runtime) "gpt-4" 30 PyNone
                PyNone [[("role", PyStr "user"); ("content", PyStr "Hi")]]
                0 1 512 PyNone 1 false [] world_empty_key) as Hout.
  cbv zeta in Hout. destruct Hout as [_ Hpresent].
  destruct (Hpresent "" eq_refl) as [Hraise _].
  exact (Hraise _ eq_refl).
Defined.

Lemma missing_artifact_file_raises_witness :
  pickle_files "./prompts/gpt4.pkl" = None
  /\ load_prompt_artifact "./prompts/gpt4.pkl" world0
     = (Raise (FileNotFoundError "./prompts/gpt4.pkl"),
        record_event (EvOpen "./prompts/gpt4.pkl" "rb") world0).
Proof.
  split; [reflexivity|].
  exact (missing_artifact_file_raises (RT := runtime) "./prompts/gpt4.pkl"
           world0 eq_refl).
Defined.

Lemma extraction_returns_artifact_on_other_shapes_witness :
  extract_model_prompt (PyDict [("system_prompt", PyStr "Be precise.")])
  = PyDict [("system_prompt", PyStr "Be precise.")]
  /\ extract_model_prompt
       (PyInst "SearchResult"
          [("terminal_node", PyInst "Node" [("state", PyList [])])])
     = PyInst "SearchResult"
         [("terminal_node", PyInst "Node" [("state", PyList [])])].
Proof.
  split.
  - apply (proj1 (extraction_returns_artifact_on_other_shapes
                    (PyDict [("system_prompt", PyStr "Be precise.")]))).
    discriminate.
  - apply (proj1 (proj2 (proj2
             (extraction_returns_artifact_on_other_shapes
                (PyInst "SearchResult"
                   [("terminal_node",
                     PyInst "Node" [("state", PyList [])])]))))
             "SearchResult"
             [("terminal_node", PyInst "Node" [("state", PyList [])])]
             "Node" [("state", PyList [])] eq_refl eq_refl).
    right. left. reflexivity.
Defined.

Lemma count_is_ignored_without_icl_witness :
  model (auto_model (Hosted hosted_model)) = Hosted hosted_model
  /\ plain_kwargs []
  /\ trace (snd (AutoModel_generate (auto_model (Hosted hosted_model)) "Hi"
                   true false (-5) (7 # 10) (95 # 100) 512 PyNone []
                   world0))
     = [EvChatCompletion
          {| req_model := "gpt-3.5-turbo";
             req_messages :=
               [[("role", PyStr "system");
                 ("content", PyStr "Be precise.")];
                [("role", PyStr "user");
                 ("content", PyStr
"# Query:
Hi

# Answer:
<START>")]];
             req_temperature := 7 # 10;
             req_max_tokens := 512;
             req_top_p := 95 # 100;
             req_n := 1;
             req_stop := PyNone;
             req_response_format := None;
             req_seed := 0;
             req_kwargs := [("stream", PyBool false)] |}].
Proof.
  split; [reflexivity|]. split; [exact no_kwargs_is_plain|].
  pose proof (count_is_ignored_without_icl (auto_model (Hosted hosted_model))
                "Hi" true (-5) 3 (7 # 10) (95 # 100) 512 PyNone [] world0)
    as Hout.
  cbv zeta in Hout. destruct Hout as (_ & _ & Hhosted).
  rewrite (Hhosted hosted_model eq_refl no_kwargs_is_plain). reflexivity.
Defined.

Lemma hosted_route_keyword_arguments_witness :
  (exists msg,
     AutoModel_generate (auto_model (Hosted hosted_model)) "Hi" true false 3
       (7 # 10) (95 # 100) 512 PyNone [("stream", PyBool true)] world0
     = (Raise (TypeError msg), world0))
  /\ trace (snd (AutoModel_generate (auto_model (Hosted hosted_model)) "Hi"
                   true false 3 (7 # 10) (95 # 100) 512 PyNone
                   [("json_output", PyBool true)] world0))
     = [EvChatCompletion
          {| req_model := "gpt-3.5-turbo";
             req_messages :=
               [[("role", PyStr "system");
                 ("content", PyStr "Be precise.")];
                [("role", PyStr "user");
                 ("content", PyStr
"# Query:
Hi

# Answer:
<START>")]];
             req_temperature := 7 # 10;
             req_max_tokens := 512;
             req_top_p := 95 # 100;
             req_n := 1;
             req_stop := PyNone;
             req_response_format := Some [("type", PyStr "json_object")];
             req_seed := 0;
             req_kwargs := [("stream", PyBool false)] |}].
Proof.
  split.
  - pose proof (hosted_route_keyword_arguments
                  (auto_model (Hosted hosted_model)) hosted_model "Hi"
                  true false 3 (7 # 10) (95 # 100) 512 PyNone
                  [("stream", PyBool true)] world0 (PyStr "Be precise.")
                  eq_refl ltac:(discriminate) eq_refl) as Hout.
    cbv zeta in Hout. destruct Hout as [Hrepeat _].
    apply (Hrepeat "stream"); simpl; tauto.
  - pose proof (hosted_route_keyword_arguments
                  (auto_model (Hosted hosted_model)) hosted_model "Hi"
                  true false 3 (7 # 10) (95 # 100) 512 PyNone
                  [] world0 (PyStr "Be precise.")
                  eq_refl ltac:(discriminate) eq_refl) as Hout.
    cbv zeta in Hout. destruct Hout as [_ Hjson].
    pose proof (Hjson no_kwargs_is_plain true) as Hrun.
    apply (f_equal (fun out => trace (snd out))) in Hrun. exact Hrun.
Defined.

End ConcreteFurther.
